(** * FMS_Calender: the timetable server (server/index.js)

    A shallow embedding of the Express handlers of [index.js] and of the
    older event routes kept in [index.js.bak_v2], followed by the
    properties of the slot resolver, the time arithmetic and the event
    mutator.

    Modelling conventions.
    - JSON values that reach the handlers are the primitives of [value];
      an absent object field reads as [VUndefined], exactly as a
      destructuring of [req.body] does.  Arrays and nested objects as
      field values and non-integer numbers are outside the model.
    - Strings are ASCII strings; the white space of [trim] and [parseInt]
      is the ASCII white space (tab, LF, VT, FF, CR, space).
    - JS numbers are exact integers plus [NaN]; this agrees with IEEE
      doubles as long as magnitudes stay below 2^53.
    - The two JSON files and the socket.io fan-out are an explicit
      [world]; [Date.now()], [Math.random()] and the outcome of
      [fs.writeFileSync] come from an [env]. *)

From Stdlib Require Import ZArith List Bool Ascii String Lia.
Import ListNotations.
Local Open Scope Z_scope.

(** ** JavaScript values *)

Inductive value : Type :=
| VUndefined
| VNull
| VBool (b : bool)
| VNum (n : Z)
| VStr (s : string).

(** ToBoolean: [undefined], [null], [false], [0] and [''] are falsy. *)
Definition truthy (v : value) : bool :=
  match v with
  | VUndefined | VNull => false
  | VBool b => b
  | VNum n => negb (n =? 0)
  | VStr s => negb (s =? "")%string
  end.

(** [a === b] on primitives. *)
Definition strict_eq (a b : value) : bool :=
  match a, b with
  | VUndefined, VUndefined => true
  | VNull, VNull => true
  | VBool x, VBool y => Bool.eqb x y
  | VNum x, VNum y => x =? y
  | VStr x, VStr y => (x =? y)%string
  | _, _ => false
  end.

(** [a || b] *)
Definition or_else (a b : value) : value := if truthy a then a else b.

(** ** Numbers

    A number is [NaN] or an exact integer.  The code computes in IEEE
    doubles: the two agree while magnitudes stay below 2^53; above, the
    code rounds, and from about 309 digits on [parseInt] gives an
    infinity, which this type does not have.  Statements about the value
    of a number carry these bounds as hypotheses. *)

Inductive number : Type :=
| NaN
| Num (z : Z).

Definition mul (a b : number) : number :=
  match a, b with
  | Num x, Num y => Num (x * y)
  | _, _ => NaN
  end.

Definition add (a b : number) : number :=
  match a, b with
  | Num x, Num y => Num (x + y)
  | _, _ => NaN
  end.

(** [a <= b] and [a >= b]: every comparison with [NaN] is false. *)
Definition le (a b : number) : bool :=
  match a, b with
  | Num x, Num y => x <=? y
  | _, _ => false
  end.

Definition ge (a b : number) : bool :=
  match a, b with
  | Num x, Num y => x >=? y
  | _, _ => false
  end.

(** [x || 0] on a number: [NaN] and [0] are falsy. *)
Definition or_zero (x : number) : number :=
  match x with
  | NaN => Num 0
  | Num z => Num z
  end.

(** ToNumber of a destructured array element: a missing element is
    [undefined], whose numeric value is [NaN]. *)
Definition to_number (x : option number) : number :=
  match x with
  | Some n => n
  | None => NaN
  end.

(** ** Strings *)

Definition is_space (c : ascii) : bool :=
  let n := nat_of_ascii c in
  ((9 <=? n) && (n <=? 13))%nat || (n =? 32)%nat.

Fixpoint trimStart (s : string) : string :=
  match s with
  | EmptyString => EmptyString
  | String c r => if is_space c then trimStart r else s
  end.

Fixpoint trimEnd (s : string) : string :=
  match s with
  | EmptyString => EmptyString
  | String c r =>
      match trimEnd r with
      | EmptyString => if is_space c then EmptyString else String c EmptyString
      | r' => String c r'
      end
  end.

(** [String.prototype.trim] *)
Definition trim (s : string) : string := trimEnd (trimStart s).

(** [s.split(':')]: never the empty array. *)
Fixpoint split_colon (s : string) : list string :=
  match s with
  | EmptyString => [EmptyString]
  | String c r =>
      if (c =? ":")%char then EmptyString :: split_colon r
      else match split_colon r with
           | h :: t => String c h :: t
           | [] => [String c EmptyString]
           end
  end.

Definition digit_of (c : ascii) : option Z :=
  let n := nat_of_ascii c in
  if ((48 <=? n) && (n <=? 57))%nat then Some (Z.of_nat n - 48) else None.

(** Value of the longest prefix of decimal digits; [None] when the
    prefix is empty. *)
Fixpoint digits_value (s : string) (acc : option Z) : option Z :=
  match s with
  | EmptyString => acc
  | String c r =>
      match digit_of c with
      | Some d =>
          digits_value r
            (Some (10 * match acc with Some a => a | None => 0 end + d))
      | None => acc
      end
  end.

(** [parseInt(s, 10)], as the exact integer of the digits read. *)
Definition parseInt (s : string) : number :=
  let s1 := trimStart s in
  let '(sign, s2) :=
    match s1 with
    | String "-" r => (-1, r)
    | String "+" r => (1, r)
    | _ => (1, s1)
    end in
  match digits_value s2 None with
  | Some v => Num (sign * v)
  | None => NaN
  end.

Definition digit_char (d : Z) : ascii :=
  if d <? 10 then ascii_of_nat (48 + Z.to_nat d)
  else ascii_of_nat (87 + Z.to_nat d).

Fixpoint radix_digits (fuel : nat) (b n : Z) (acc : string) : string :=
  match fuel with
  | O => acc
  | S f =>
      if n <? b then String (digit_char n) acc
      else radix_digits f b (n / b) (String (digit_char (n mod b)) acc)
  end.

Definition digits_fuel (n : Z) : nat := S (Z.to_nat (Z.log2 n)).

(** [n.toString(b)] for an integer [n] and a radix [2 <= b <= 36]. *)
Definition toString (b n : Z) : string :=
  if n <? 0 then String "-" (radix_digits (digits_fuel (- n)) b (- n) "")
  else radix_digits (digits_fuel n) b n "".

(** [String(v)] *)
Definition String_ (v : value) : string :=
  match v with
  | VUndefined => "undefined"
  | VNull => "null"
  | VBool true => "true"
  | VBool false => "false"
  | VNum n => toString 10 n
  | VStr s => s
  end.

(** ** Time arithmetic (index.js, lines 142-145) *)

Definition toMinutes (str : value) : number :=
  let parts := map (fun x => or_zero (parseInt x)) (split_colon (String_ str)) in
  let h := nth_error parts 0 in
  let m := nth_error parts 1 in
  add (mul (to_number h) (Num 60)) (to_number m).

(** ** Stored records *)

(** A weekly slot of masterSchedule.json; the body of
    POST /api/schedule/slot has the same five fields. *)
Module Slot.
Record t : Type := mk {
  day : value;
  room : value;
  startTime : value;
  endTime : value;
  className : value
}.
End Slot.

(** A date-specific event of events.json. *)
Module Event.
Record t : Type := mk {
  id : value;
  date : value;
  room : value;
  startTime : value;
  endTime : value;
  eventName : value;
  createdBy : value
}.
End Event.

(** The body of POST /api/events. *)
Module Req.
Record t : Type := mk {
  action : value;
  id : value;
  date : value;
  room : value;
  startTime : value;
  endTime : value;
  eventName : value
}.
End Req.

(** ** The world of a handler *)

Inductive broadcast : Type :=
| ScheduleUpdate (payload : list Slot.t)   (* io.emit('schedule:update', _) *)
| EventsUpdate (payload : list Event.t).   (* io.emit('events:update', _) *)

Record world : Type := mkWorld {
  scheduleFile : list Slot.t;
  eventsFile : list Event.t;
  emitted : list broadcast
}.

Record env : Type := mkEnv {
  disk_ok : bool;     (* does fs.writeFileSync succeed *)
  now : Z;            (* Date.now() *)
  random : Z          (* Math.floor(Math.random() * 10000) *)
}.

Inductive exn : Type :=
| WriteError     (* thrown by fs.writeFileSync *)
| TypeError.     (* calling a method that the value does not have *)

Inductive result (A : Type) : Type :=
| Ok (a : A)
| Throw (e : exn).
Arguments Ok {A} a.
Arguments Throw {A} e.

Definition M (A : Type) : Type := env -> world -> result A * world.

Definition ret {A} (a : A) : M A := fun _ w => (Ok a, w).

Definition bind {A B} (m : M A) (k : A -> M B) : M B :=
  fun e w =>
    match m e w with
    | (Ok a, w') => k a e w'
    | (Throw x, w') => (Throw x, w')
    end.

Definition throw {A} (x : exn) : M A := fun _ w => (Throw x, w).

(** [try { m } catch (err) { h }] *)
Definition try_catch {A} (m : M A) (h : M A) : M A :=
  fun e w =>
    match m e w with
    | (Ok a, w') => (Ok a, w')
    | (Throw _, w') => h e w'
    end.

Notation "x <- m ;; k" := (bind m (fun x => k))
  (at level 61, m at next level, right associativity).
Notation "m ;;; k" := (bind m (fun _ => k))
  (at level 61, right associativity).

Definition readSchedule : M (list Slot.t) :=
  fun _ w => (Ok (scheduleFile w), w).

Definition readEvents : M (list Event.t) :=
  fun _ w => (Ok (eventsFile w), w).

Definition writeSchedule (schedule : list Slot.t) : M unit :=
  fun e w =>
    if disk_ok e
    then (Ok tt, mkWorld schedule (eventsFile w) (emitted w))
    else (Throw WriteError, w).

Definition writeEvents (events : list Event.t) : M unit :=
  fun e w =>
    if disk_ok e
    then (Ok tt, mkWorld (scheduleFile w) events (emitted w))
    else (Throw WriteError, w).

Definition emit (b : broadcast) : M unit :=
  fun _ w => (Ok tt, mkWorld (scheduleFile w) (eventsFile w) (emitted w ++ [b])).

Definition dateNow : M Z := fun e w => (Ok (now e), w).

Definition randomBelow10000 : M Z := fun e w => (Ok (random e), w).

(** ** Responses *)

Inductive body : Type :=
| ErrorBody (error : string)               (* { error } *)
| MessageBody (message : string)           (* { message } *)
| ScheduleBody (schedule : list Slot.t)    (* { success: true, schedule } *)
| EventsBody (events : list Event.t)       (* { success: true, events } *)
| EventBody (ev : Event.t)                 (* the event itself *)
| SuccessBody.                             (* { success: true } *)

Inductive response : Type :=
| Json (status : Z) (b : body).

(** ** Slot resolver (POST /api/schedule/slot, index.js lines 134-175) *)

(** The test of line 155 on a stored interval [itS, itE) against the
    proposed [sMin, eMin): they overlap unless [eMin <= itS || sMin >= itE]. *)
Definition overlaps (sMin eMin itS itE : number) : bool :=
  negb (le eMin itS || ge sMin itE).

(** [item.day !== day || item.room !== room] negated. *)
Definition same_day_room (p item : Slot.t) : bool :=
  strict_eq (Slot.day item) (Slot.day p) &&
  strict_eq (Slot.room item) (Slot.room p).

(** Does the stored [item] clash with the proposal [p]. *)
Definition clashes (p item : Slot.t) : bool :=
  same_day_room p item &&
  overlaps (toMinutes (Slot.startTime p)) (toMinutes (Slot.endTime p))
           (toMinutes (Slot.startTime item)) (toMinutes (Slot.endTime item)).

(** The callback of [schedule.filter] (lines 150-159), with [sMin] and
    [eMin] of lines 147-148. *)
Definition keep (p item : Slot.t) : bool :=
  let sMin := toMinutes (Slot.startTime p) in
  let eMin := toMinutes (Slot.endTime p) in
  if negb (strict_eq (Slot.day item) (Slot.day p))
     || negb (strict_eq (Slot.room item) (Slot.room p))
  then true
  else
    let itS := toMinutes (Slot.startTime item) in
    let itE := toMinutes (Slot.endTime item) in
    if negb (le eMin itS || ge sMin itE)
    then false
    else true.

(** [v.trim()]: only strings have the method. *)
Definition trim_method (v : value) : result string :=
  match v with
  | VStr s => Ok (trim s)
  | _ => Throw TypeError
  end.

(** [(className || '').trim()] (line 161) *)
Definition trimmedName (className : value) : result string :=
  trim_method (or_else className (VStr "")).

(** The slot pushed at line 163. *)
Definition new_slot (p : Slot.t) (name : string) : Slot.t :=
  Slot.mk (Slot.day p) (Slot.room p) (Slot.startTime p) (Slot.endTime p)
          (VStr name).

(** Lines 147-164: from the schedule read and the request body to the
    array handed to [writeSchedule]. *)
Definition resolve (schedule : list Slot.t) (p : Slot.t) : result (list Slot.t) :=
  let filtered := filter (keep p) schedule in
  match trimmedName (Slot.className p) with
  | Throw x => Throw x
  | Ok name =>
      if truthy (VStr name)
      then Ok (filtered ++ [new_slot p name])
      else Ok filtered
  end.

Definition lift {A} (r : result A) : M A := fun _ w => (r, w).

Definition post_schedule_slot (req : Slot.t) : M response :=
  if negb (truthy (Slot.day req)) || negb (truthy (Slot.room req))
     || negb (truthy (Slot.startTime req)) || negb (truthy (Slot.endTime req))
  then ret (Json 400 (ErrorBody "missing fields"))
  else
    schedule <- readSchedule ;;
    filtered <- lift (resolve schedule req) ;;
    try_catch
      (writeSchedule filtered ;;;
       payload <- readSchedule ;;
       emit (ScheduleUpdate payload) ;;;
       ret (Json 200 (ScheduleBody payload)))
      (ret (Json 500 (ErrorBody "write failed"))).

(** ** Event mutator (POST /api/events, index.js lines 197-253) *)

(** [Date.now().toString(36) + '-' + Math.floor(Math.random() * 10000)] *)
Definition make_id (t r : Z) : string :=
  (toString 36 t ++ "-" ++ toString 10 r)%string.

Definition fresh_id : M value :=
  t <- dateNow ;;
  r <- randomBelow10000 ;;
  ret (VStr (make_id t r)).

(** The object built by the callback of [events.map] (lines 227-234). *)
Definition patch (req : Req.t) (e : Event.t) : Event.t :=
  Event.mk (Event.id e)
           (or_else (Req.date req) (Event.date e))
           (or_else (Req.room req) (Event.room e))
           (or_else (Req.startTime req) (Event.startTime e))
           (or_else (Req.endTime req) (Event.endTime e))
           (or_else (Req.eventName req) (Event.eventName e))
           (Event.createdBy e).

(** The three branches (lines 205-242): [inl] is an early [return res...],
    [inr] the new value of [events].  [userId] is [req.user.userId], the
    identity that [authMiddleware] took from the token. *)
Definition apply_action (userId : value) (req : Req.t) (events : list Event.t)
  : M (response + list Event.t) :=
  if strict_eq (Req.action req) (VStr "create") then
    if negb (truthy (Req.date req)) || negb (truthy (Req.room req))
       || negb (truthy (Req.startTime req)) || negb (truthy (Req.endTime req))
       || negb (truthy (Req.eventName req))
    then ret (inl (Json 400 (MessageBody "Missing fields")))
    else
      id <- fresh_id ;;
      let ev := Event.mk id (Req.date req) (Req.room req) (Req.startTime req)
                         (Req.endTime req) (Req.eventName req) userId in
      ret (inr (events ++ [ev]))
  else if strict_eq (Req.action req) (VStr "update") then
    if negb (truthy (Req.id req))
    then ret (inl (Json 400 (MessageBody "id is required")))
    else
      ret (inr (map (fun e =>
                       if negb (strict_eq (Event.id e) (Req.id req)) then e
                       else patch req e) events))
  else if strict_eq (Req.action req) (VStr "delete") then
    if negb (truthy (Req.id req))
    then ret (inl (Json 400 (MessageBody "id is required")))
    else
      ret (inr (filter (fun e => negb (strict_eq (Event.id e) (Req.id req)))
                       events))
  else ret (inl (Json 400 (MessageBody "Unknown action"))).

Definition post_events (userId : value) (req : Req.t) : M response :=
  events <- readEvents ;;
  if negb (truthy (Req.action req))
  then ret (Json 400 (MessageBody "action is required"))
  else
    r <- apply_action userId req events ;;
    match r with
    | inl early => ret early
    | inr events' =>
        try_catch
          (writeEvents events' ;;;
           latest <- readEvents ;;
           emit (EventsUpdate latest) ;;;
           ret (Json 200 (EventsBody latest)))
          (ret (Json 500 (MessageBody "write failed")))
    end.

(** ** The earlier event routes (index.js.bak_v2) *)

Module Bak.

(** POST /api/events (lines 75-85) *)
Definition post_events (userId : value) (req : Req.t) : M response :=
  if negb (truthy (Req.date req)) || negb (truthy (Req.room req))
     || negb (truthy (Req.startTime req)) || negb (truthy (Req.endTime req))
     || negb (truthy (Req.eventName req))
  then ret (Json 400 (MessageBody "Missing fields"))
  else
    events <- readEvents ;;
    id <- fresh_id ;;
    let ev := Event.mk id (Req.date req) (Req.room req) (Req.startTime req)
                       (Req.endTime req) (Req.eventName req) userId in
    let events := events ++ [ev] in
    writeEvents events ;;;
    emit (EventsUpdate events) ;;;
    ret (Json 201 (EventBody ev)).

(** DELETE /api/events/:id (lines 88-97); [id] is [req.params.id]. *)
Definition delete_event (id : string) : M response :=
  events <- readEvents ;;
  let before := List.length events in
  let events := filter (fun e => negb (strict_eq (Event.id e) (VStr id))) events in
  if (List.length events =? before)%nat
  then ret (Json 404 (MessageBody "Not found"))
  else
    writeEvents events ;;;
    emit (EventsUpdate events) ;;;
    ret (Json 200 SuccessBody).

End Bak.

(** ** Reading an id back

    The inverse of [make_id], used to state that ids made at different
    (time, random) pairs differ. *)

Definition char_digit (c : ascii) : Z :=
  let n := Z.of_nat (nat_of_ascii c) in
  if n <? 58 then n - 48 else n - 87.

Fixpoint decode (b : Z) (s : string) (a : Z) : Z :=
  match s with
  | EmptyString => a
  | String c r => decode b r (a * b + char_digit c)
  end.

Fixpoint before_dash (s : string) : string :=
  match s with
  | EmptyString => EmptyString
  | String c r => if (c =? "-")%char then EmptyString else String c (before_dash r)
  end.

Fixpoint after_dash (s : string) : string :=
  match s with
  | EmptyString => EmptyString
  | String c r => if (c =? "-")%char then r else after_dash r
  end.

Definition id_time (s : string) : Z := decode 36 (before_dash s) 0.

Definition id_random (s : string) : Z := decode 10 (after_dash s) 0.

Fixpoint has_colon (s : string) : bool :=
  match s with
  | EmptyString => false
  | String c r => (c =? ":")%char || has_colon r
  end.

(** ** Reads (index.js lines 122-125 and 182-190) *)

(** GET /api/schedule: the array sent by [res.json]. *)
Definition get_schedule : M (list Slot.t) :=
  schedule <- readSchedule ;;
  ret schedule.

(** GET /api/events?date=...: [date] is [req.query.date], a string or
    absent; the result is the array sent by [res.json]. *)
Definition get_events (query_date : option string) : M (list Event.t) :=
  let date :=
    trim (match query_date with
          | Some d => if truthy (VStr d) then d else EmptyString
          | None => EmptyString
          end) in
  events <- readEvents ;;
  if negb (truthy (VStr date)) then ret events
  else ret (filter (fun ev => strict_eq (Event.date ev) (VStr date)) events).

(** ** Authentication (index.js lines 25-28 and 75-114) *)

(** The decoded token, with the two fields the server reads. *)
Module Payload.
Record t : Type := mk {
  userId : value;
  isAdmin : value
}.
End Payload.

(** The jsonwebtoken library with the server's secret and expiry fixed:
    [jwt_sign] is [jwt.sign(payload, JWT_SECRET, { expiresIn: '12h' })],
    [jwt_verify] is [jwt.verify(token, JWT_SECRET)], [None] when it
    throws.  Both read the clock. *)
Record jwt : Type := mkJwt {
  jwt_sign : env -> Payload.t -> string;
  jwt_verify : env -> string -> option Payload.t
}.

Definition ADMIN_ACCOUNTS : list (string * string) :=
  [("admin1", "pass1"); ("admin2", "pass2")]%string.

(** [s.split(sep)] for a separator of one character. *)
Fixpoint split_on (sep : ascii) (s : string) : list string :=
  match s with
  | EmptyString => [EmptyString]
  | String c r =>
      if (c =? sep)%char then EmptyString :: split_on sep r
      else match split_on sep r with
           | h :: t => String c h :: t
           | [] => [String c EmptyString]
           end
  end.

(** [authMiddleware]: [inl] is the response it sends itself, [inr] the
    payload it stores in [req.user] before calling [next()].
    [authorization] is [req.headers['authorization']]. *)
Definition authMiddleware (J : jwt) (authorization : option string)
  : M (response + Payload.t) :=
  fun e w =>
    let header :=
      match authorization with
      | Some h => if truthy (VStr h) then h else EmptyString
      | None => EmptyString
      end in
    let parts := split_on " " header in
    if negb (List.length parts =? 2)%nat
       || negb (nth 0 parts EmptyString =? "Bearer")%string
    then (Ok (inl (Json 401 (MessageBody "Missing token"))), w)
    else
      let token := nth 1 parts EmptyString in
      match jwt_verify J e token with
      | Some payload =>
          if negb (truthy (Payload.isAdmin payload))
          then (Ok (inl (Json 403 (MessageBody "Forbidden"))), w)
          else (Ok (inr payload), w)
      | None => (Ok (inl (Json 401 (MessageBody "Invalid token"))), w)
      end.

(** A route registered as [app.post(path, authMiddleware, handler)]. *)
Definition guarded (J : jwt) (authorization : option string)
           (handler : Payload.t -> M response) : M response :=
  r <- authMiddleware J authorization ;;
  match r with
  | inl sent => ret sent
  | inr user => handler user
  end.

Definition route_post_schedule_slot (J : jwt) (authorization : option string)
           (req : Slot.t) : M response :=
  guarded J authorization (fun _ => post_schedule_slot req).

Definition route_post_events (J : jwt) (authorization : option string)
           (req : Req.t) : M response :=
  guarded J authorization (fun user => post_events (Payload.userId user) req).

Inductive login_response : Type :=
| LoginOk (token : string) (userId : string)      (* 200 { token, userId } *)
| LoginError (status : Z) (message : string).     (* { message } *)

(** POST /api/login *)
Definition post_login (J : jwt) (userId password : value) : M login_response :=
  fun e w =>
    if negb (truthy userId) || negb (truthy password)
    then (Ok (LoginError 400 "userId and password required"), w)
    else
      match find (fun a => strict_eq (VStr (fst a)) userId
                           && strict_eq (VStr (snd a)) password)
                 ADMIN_ACCOUNTS with
      | None => (Ok (LoginError 401 "Invalid credentials"), w)
      | Some found =>
          let token := jwt_sign J e (Payload.mk (VStr (fst found)) (VBool true)) in
          (Ok (LoginOk token (fst found)), w)
      end.

(** ** Sockets (index.js lines 259-294) *)

(** What a socket is sent when it connects: the two [socket.emit]s of
    lines 264-267. *)
Definition on_connection : M (list broadcast) :=
  schedule <- readSchedule ;;
  events <- readEvents ;;
  ret [ScheduleUpdate schedule; EventsUpdate events].

(** The answers to 'request:schedule' and 'request:events'. *)
Definition on_request_schedule : M (list broadcast) :=
  schedule <- readSchedule ;;
  ret [ScheduleUpdate schedule].

Definition on_request_events : M (list broadcast) :=
  events <- readEvents ;;
  ret [EventsUpdate events].

(** ** Runs of requests and what they preserve *)

(** The slot route served for a list of requests, each with the
    environment it meets. *)
Fixpoint serve_slots (reqs : list (env * Slot.t)) (w : world) : world :=
  match reqs with
  | [] => w
  | (e, req) :: rest => serve_slots rest (snd (post_schedule_slot req e w))
  end.

(** No two slots of the schedule clash. *)
Fixpoint clash_free (schedule : list Slot.t) : bool :=
  match schedule with
  | [] => true
  | a :: rest =>
      forallb (fun b => negb (clashes a b)) rest && clash_free rest
  end.

(** A slot as the handler writes it: the four required fields truthy and
    the name a non-empty string without surrounding white space. *)
Definition well_formed_slot (s : Slot.t) : bool :=
  truthy (Slot.day s) && truthy (Slot.room s)
  && truthy (Slot.startTime s) && truthy (Slot.endTime s)
  && match Slot.className s with
     | VStr name => negb (name =? "")%string && (trim name =? name)%string
     | _ => false
     end.

Definition is_string (v : value) : bool :=
  match v with
  | VStr _ => true
  | _ => false
  end.

Definition is_digit (c : ascii) : bool :=
  match digit_of c with
  | Some _ => true
  | None => false
  end.

Fixpoint only_digits (s : string) : bool :=
  match s with
  | EmptyString => true
  | String c r => is_digit c && only_digits r
  end.

(** A non-empty string of decimal digits. *)
Definition all_digits (s : string) : bool :=
  negb (s =? "")%string && only_digits s.

Fixpoint has_space (s : string) : bool :=
  match s with
  | EmptyString => false
  | String c r => (c =? " ")%char || has_space r
  end.

(** A string that [trim] leaves as it is. *)
Definition is_trimmed_string (v : value) : bool :=
  match v with
  | VStr s => (trim s =? s)%string
  | _ => false
  end.

(** A stand-in for the token library, for running the routes: the token
    is the user id, and every token decodes to an administrator. *)
Definition plain_jwt : jwt :=
  mkJwt (fun _ p => String_ (Payload.userId p))
        (fun _ token => Some (Payload.mk (VStr token) (VBool true))).

(** ** Concrete inputs used below *)

Definition math_0900 : Slot.t :=
  Slot.mk (VStr "Mon") (VStr "Room1") (VStr "09:00") (VStr "10:00") (VStr "Math").

Definition physics_0930 : Slot.t :=
  Slot.mk (VStr "Mon") (VStr "Room1") (VStr "09:30") (VStr "10:30") (VStr " Physics ").

Definition physics_1000 : Slot.t :=
  Slot.mk (VStr "Mon") (VStr "Room1") (VStr "10:00") (VStr "11:00") (VStr "Physics").

(** A proposal of zero length. *)
Definition quiz_1000 : Slot.t :=
  Slot.mk (VStr "Mon") (VStr "Room1") (VStr "10:00") (VStr "10:00") (VStr "Quiz").

(** A proposal that clears 09:30-10:30 and names no class. *)
Definition clear_0930 : Slot.t :=
  Slot.mk (VStr "Mon") (VStr "Room1") (VStr "09:30") (VStr "10:30") VUndefined.

Definition chem_tue : Slot.t :=
  Slot.mk (VStr "Tue") (VStr "Room1") (VStr "09:30") (VStr "10:30") (VStr "Chemistry").

Definition blank_0930 : Slot.t :=
  Slot.mk (VStr "Mon") (VStr "Room1") (VStr "09:30") (VStr "10:30") (VStr "  ").

Definition seminar : Event.t :=
  Event.mk (VStr "lvnj1fk0-42") (VStr "2024-05-01") (VStr "R1")
           (VStr "10:00") (VStr "11:00") (VStr "Seminar") (VStr "admin1").

Definition lecture : Event.t :=
  Event.mk (VStr "lvnj1fk1-7") (VStr "2024-05-02") (VStr "R2")
           (VStr "12:00") (VStr "13:00") (VStr "Lecture") (VStr "admin2").

Definition create_seminar : Req.t :=
  Req.mk (VStr "create") VUndefined (VStr "2024-05-01") (VStr "R1")
         (VStr "10:00") (VStr "11:00") (VStr "Seminar").

Definition rename_seminar : Req.t :=
  Req.mk (VStr "update") (VStr "lvnj1fk0-42") VUndefined VUndefined
         VUndefined VUndefined (VStr "Colloquium").

Definition delete_nope : Req.t :=
  Req.mk (VStr "delete") (VStr "nope") VUndefined VUndefined
         VUndefined VUndefined VUndefined.

Definition archive_request : Req.t :=
  Req.mk (VStr "archive") (VStr "lvnj1fk0-42") VUndefined VUndefined
         VUndefined VUndefined VUndefined.

(** A class that ends at 14:00. *)
Definition tutorial_1300 : Slot.t :=
  Slot.mk (VStr "Mon") (VStr "Room1") (VStr "13:00") (VStr "14:00")
          (VStr "Tutorial").

(** A proposal whose times have no colon, and a schedule it should not
    touch. *)
Definition lab_14 : Slot.t :=
  Slot.mk (VStr "Mon") (VStr "Room1") (VStr "14") (VStr "15") (VStr "Lab").

Definition env0 : env := mkEnv true 1714550400000 42.

Definition world_of (schedule : list Slot.t) (events : list Event.t) : world :=
  mkWorld schedule events [].

(** The world once [admin1] has created the seminar in the empty
    collection. *)
Definition after_first_create : world :=
  snd (post_events (VStr "admin1") create_seminar env0 (world_of [] [])).

(** * Properties *)

(** ** Values and time arithmetic *)

Lemma strict_eq_refl (v : value) : strict_eq v v = true.
Proof.
  destruct v as [ | | b | n | s]; simpl; try reflexivity.
  - now destruct b.
  - apply Z.eqb_refl.
  - apply String.eqb_refl.
Qed.

Lemma strict_eq_true (a b : value) : strict_eq a b = true -> a = b.
Proof.
  destruct a as [ | | x | x | x], b as [ | | y | y | y]; simpl;
    try discriminate; try reflexivity; intro H.
  - apply Bool.eqb_prop in H. now subst.
  - apply Z.eqb_eq in H. now subst.
  - apply String.eqb_eq in H. now subst.
Qed.

Lemma toMinutes_0930 : toMinutes (VStr "09:30") = Num 570.
Proof. reflexivity. Qed.

Lemma toMinutes_lenient : toMinutes (VStr "ab:cd") = Num 0.
Proof. reflexivity. Qed.

Lemma toMinutes_extra_parts : toMinutes (VStr " 7:05:59") = Num 425.
Proof. reflexivity. Qed.

(** ** Slot resolver *)

Lemma keep_clashes (p item : Slot.t) : keep p item = negb (clashes p item).
Proof.
  unfold keep, clashes, same_day_room, overlaps.
  destruct (strict_eq (Slot.day item) (Slot.day p));
    destruct (strict_eq (Slot.room item) (Slot.room p)); reflexivity.
Qed.

Lemma same_day_room_new_slot (p : Slot.t) (name : string) :
  same_day_room p (new_slot p name) = true.
Proof.
  unfold same_day_room, new_slot; simpl. now rewrite !strict_eq_refl.
Qed.

Lemma clashes_new_slot (p : Slot.t) (name : string) :
  clashes p (new_slot p name) =
  overlaps (toMinutes (Slot.startTime p)) (toMinutes (Slot.endTime p))
           (toMinutes (Slot.startTime p)) (toMinutes (Slot.endTime p)).
Proof.
  unfold clashes. now rewrite same_day_room_new_slot.
Qed.

Lemma filter_keep_clashes (p : Slot.t) (schedule : list Slot.t) :
  forall item, In item (filter (keep p) schedule) ->
               In item schedule /\ clashes p item = false.
Proof.
  intros item H. apply filter_In in H. destruct H as [Hin Hk].
  split; [exact Hin | ]. rewrite keep_clashes in Hk.
  now apply negb_true_iff.
Qed.

Lemma filter_keep_idem (p : Slot.t) (schedule : list Slot.t) :
  filter (keep p) (filter (keep p) schedule) = filter (keep p) schedule.
Proof.
  induction schedule as [ | item rest IH]; simpl; [reflexivity | ].
  destruct (keep p item) eqn:K; simpl; [ | exact IH].
  now rewrite K, IH.
Qed.

(** What [resolve] returns, by the shape of the label. *)
Lemma resolve_label (schedule : list Slot.t) (p : Slot.t) (label : string) :
  Slot.className p = VStr label ->
  resolve schedule p =
  if (trim label =? "")%string
  then Ok (filter (keep p) schedule)
  else Ok (filter (keep p) schedule ++ [new_slot p (trim label)]).
Proof.
  intro Hc. unfold resolve, trimmedName, or_else. rewrite Hc. simpl.
  destruct (label =? "")%string eqn:El; simpl.
  - apply String.eqb_eq in El. subst label. reflexivity.
  - now destruct (trim label =? "")%string.
Qed.

Lemma resolve_falsy (schedule : list Slot.t) (p : Slot.t) :
  truthy (Slot.className p) = false ->
  resolve schedule p = Ok (filter (keep p) schedule).
Proof.
  intro Hc. unfold resolve, trimmedName, or_else. now rewrite Hc.
Qed.

(** The handler, once the required fields are there and the array that
    [resolve] builds can be written. *)
Lemma post_schedule_slot_ok (e : env) (w : world) (req : Slot.t)
      (result : list Slot.t) :
  truthy (Slot.day req) = true -> truthy (Slot.room req) = true ->
  truthy (Slot.startTime req) = true -> truthy (Slot.endTime req) = true ->
  resolve (scheduleFile w) req = Ok result ->
  disk_ok e = true ->
  post_schedule_slot req e w =
  (Ok (Json 200 (ScheduleBody result)),
   mkWorld result (eventsFile w) (emitted w ++ [ScheduleUpdate result])).
Proof.
  intros Hd Hr Hs He Hres Hdisk.
  unfold post_schedule_slot. rewrite Hd, Hr, Hs, He. simpl.
  unfold bind, readSchedule, lift, try_catch, writeSchedule, emit, ret.
  rewrite Hres, Hdisk. reflexivity.
Qed.

Lemma filter_keep_not_clashes (p : Slot.t) (schedule : list Slot.t) :
  filter (keep p) schedule = filter (fun item => negb (clashes p item)) schedule.
Proof. apply filter_ext. intro item. apply keep_clashes. Qed.



(** The first scenario of the specification: the overlapped class goes,
    the new one is stored under its trimmed name. *)
Lemma resolve_scenario_overlap :
  resolve [math_0900] physics_0930
  = Ok [Slot.mk (VStr "Mon") (VStr "Room1") (VStr "09:30") (VStr "10:30")
                (VStr "Physics")].
Proof. reflexivity. Qed.

(** What the resolver keeps, under the rule as coded: in their order,
    exactly the old slots that do not clash with the proposal; so a slot
    of another (day, room) or one whose interval does not overlap the
    proposal's is in the result, and when the two times are read as the
    same number, a slot that ends at the minute the proposal starts, or
    starts at the minute the proposal ends, is in the result. *)
Theorem resolve_retains
        (schedule : list Slot.t) (p : Slot.t) (result : list Slot.t) :
  resolve schedule p = Ok result ->
  (exists added,
      result = filter (fun item => negb (clashes p item)) schedule ++ added) /\
  (forall item,
      In item schedule ->
      same_day_room p item = false \/
      overlaps (toMinutes (Slot.startTime p)) (toMinutes (Slot.endTime p))
               (toMinutes (Slot.startTime item)) (toMinutes (Slot.endTime item))
      = false ->
      In item result) /\
  (forall item n,
      In item schedule ->
      toMinutes (Slot.endTime item) = Num n ->
      toMinutes (Slot.startTime p) = Num n ->
      In item result) /\
  (forall item n,
      In item schedule ->
      toMinutes (Slot.startTime item) = Num n ->
      toMinutes (Slot.endTime p) = Num n ->
      In item result).
Proof.
  intro H.
  assert (Hshape : exists added, result = filter (keep p) schedule ++ added).
  { unfold resolve in H.
    destruct (trimmedName (Slot.className p)) as [name | x]; [ | discriminate].
    destruct (truthy (VStr name)); inversion H; subst.
    - now exists [new_slot p name].
    - exists []. now rewrite app_nil_r. }
  destruct Hshape as [added Hres].
  assert (Hkeep : forall item, In item schedule -> clashes p item = false ->
                               In item result).
  { intros item Hin Hcl. subst result. apply in_or_app. left.
    apply filter_In. split; [exact Hin | ].
    rewrite keep_clashes, Hcl. reflexivity. }
  split; [ | split; [ | split]].
  - exists added. now rewrite <- filter_keep_not_clashes.
  - intros item Hin [Hd | Ho]; apply Hkeep; trivial; unfold clashes.
    + now rewrite Hd.
    + rewrite Ho. apply andb_false_r.
  - intros item n Hin Hend Hstart. apply Hkeep; trivial.
    unfold clashes, overlaps. rewrite Hend, Hstart. simpl.
    replace (n >=? n) with true by (symmetry; apply Z.geb_le; lia).
    rewrite orb_true_r. apply andb_false_r.
  - intros item n Hin Hstart Hend. apply Hkeep; trivial.
    unfold clashes, overlaps. rewrite Hstart, Hend. simpl.
    rewrite Z.leb_refl. apply andb_false_r.
Qed.

Lemma resolve_retains_witness :
  resolve [math_0900] physics_1000 = Ok [math_0900; physics_1000] /\
  In math_0900 [math_0900; physics_1000].
Proof.
  split; [reflexivity | ].
  refine (proj1 (proj2 (proj2
            (resolve_retains [math_0900] physics_1000
                             [math_0900; physics_1000] _)))
          math_0900 600 _ _ _).
  - reflexivity.
  - simpl. now left.
  - reflexivity.
  - reflexivity.
Defined.

(** C7: on the schedule that holds the Monday Room1 class 13:00-14:00 and
    the proposal for Monday Room1 from "14" to "15", the code does not
    retain the class that ends when the proposal starts: "14" has no
    colon, so its minutes are NaN, both comparisons of the rule are
    false, and the filter drops the class. *)
Theorem resolve_colon_free_start_drops_adjacent_slot :
  resolve [tutorial_1300] lab_14 = Ok [lab_14].
Proof. reflexivity. Qed.

(** C8: when the label trims to the empty string, the resolver returns
    the old schedule without the slots that clash with the proposal and
    nothing else: no slot is added, and no slot of the proposal's
    (day, room) overlapping its interval is left. *)
Theorem resolve_blank_label_deletes
        (schedule : list Slot.t) (p : Slot.t) (label : string) :
  Slot.className p = VStr label ->
  truthy (VStr (trim label)) = false ->
  exists result,
    resolve schedule p = Ok result /\
    result = filter (fun item => negb (clashes p item)) schedule /\
    (forall item, In item result -> In item schedule /\ clashes p item = false) /\
    (List.length result <= List.length schedule)%nat.
Proof.
  intros Hc Hl. exists (filter (keep p) schedule).
  split; [ | split; [ | split]].
  - rewrite (resolve_label schedule p label Hc).
    simpl in Hl. apply negb_false_iff in Hl. now rewrite Hl.
  - apply filter_keep_not_clashes.
  - apply filter_keep_clashes.
  - apply filter_length_le.
Qed.

Lemma resolve_blank_label_deletes_witness :
  exists result,
    resolve [math_0900; physics_1000] blank_0930 = Ok result /\
    result = filter (fun item => negb (clashes blank_0930 item))
                    [math_0900; physics_1000] /\
    (forall item, In item result ->
                  In item [math_0900; physics_1000] /\
                  clashes blank_0930 item = false) /\
    (List.length result <= List.length [math_0900; physics_1000])%nat.
Proof.
  apply (resolve_blank_label_deletes [math_0900; physics_1000] blank_0930 "  ");
    reflexivity.
Defined.

(** The proposal of zero length: it does not overlap its own stored
    copy, so a second application appends a second copy. *)
Lemma resolve_quiz_twice :
  resolve [] quiz_1000 = Ok [quiz_1000] /\
  resolve [quiz_1000] quiz_1000 = Ok [quiz_1000; quiz_1000].
Proof. split; reflexivity. Qed.

(** C3 as stated fails: for the zero-length proposal (Mon, Room1, 10:00,
    10:00, Quiz) on the empty schedule, applying the resolver once gives
    one slot and applying it again gives two. *)
Lemma resolve_not_idempotent_zero_length :
  ~ (forall schedule p once,
        resolve schedule p = Ok once -> resolve once p = Ok once).
Proof.
  intro H. specialize (H [] quiz_1000 [quiz_1000] eq_refl).
  vm_compute in H. discriminate H.
Qed.

(** C3, amended: applying the resolver a second time with the same
    proposal always returns a schedule with the same members as the first
    result, and returns the first result itself whenever the proposal's
    interval overlaps itself under the rule (as every interval with
    start < end does) or the label trims to the empty string.  When the
    interval does not overlap itself (zero length or inverted) and the
    trimmed label is non-empty, the second application returns the first
    result followed by a second copy of the proposal's slot. *)
Theorem resolve_idempotent_on_self_overlap
        (schedule : list Slot.t) (p : Slot.t) (once : list Slot.t) :
  resolve schedule p = Ok once ->
  (exists twice,
      resolve once p = Ok twice /\
      forall item, In item twice <-> In item once) /\
  (overlaps (toMinutes (Slot.startTime p)) (toMinutes (Slot.endTime p))
            (toMinutes (Slot.startTime p)) (toMinutes (Slot.endTime p)) = true
   \/ trimmedName (Slot.className p) = Ok ""%string ->
   resolve once p = Ok once) /\
  (forall name,
      overlaps (toMinutes (Slot.startTime p)) (toMinutes (Slot.endTime p))
               (toMinutes (Slot.startTime p)) (toMinutes (Slot.endTime p))
      = false ->
      trimmedName (Slot.className p) = Ok name ->
      truthy (VStr name) = true ->
      resolve once p = Ok (once ++ [new_slot p name]) /\
      once ++ [new_slot p name] <> once).
Proof.
  intro H. unfold resolve in H.
  destruct (trimmedName (Slot.className p)) as [name | x] eqn:T;
    [ | discriminate].
  destruct (truthy (VStr name)) eqn:Tn; inversion H; subst once; clear H.
  - assert (Htwice :
      resolve (filter (keep p) schedule ++ [new_slot p name]) p
      = Ok ((filter (keep p) schedule
             ++ (if keep p (new_slot p name) then [new_slot p name] else []))
            ++ [new_slot p name])).
    { unfold resolve. rewrite T, Tn, filter_app, filter_keep_idem.
      reflexivity. }
    split; [ | split].
    + eexists. split; [exact Htwice | ].
      intro item. rewrite !in_app_iff.
      destruct (keep p (new_slot p name)); simpl; tauto.
    + intros [Ho | Hn].
      * rewrite Htwice, keep_clashes, clashes_new_slot, Ho. simpl.
        now rewrite app_nil_r.
      * inversion Hn; subst name. discriminate Tn.
    + intros name' Ho Hname _. inversion Hname; subst name'. split.
      * rewrite Htwice, keep_clashes, clashes_new_slot, Ho. reflexivity.
      * intro Heq. apply (f_equal (@List.length Slot.t)) in Heq.
        rewrite !length_app in Heq. simpl in Heq. lia.
  - assert (Htwice : resolve (filter (keep p) schedule) p
                     = Ok (filter (keep p) schedule)).
    { unfold resolve. now rewrite T, Tn, filter_keep_idem. }
    split; [ | split].
    + eexists. split; [exact Htwice | tauto].
    + intros _. exact Htwice.
    + intros name' _ Hname Hn. inversion Hname; subst name'. congruence.
Qed.

Lemma resolve_idempotent_on_self_overlap_witness :
  (resolve [math_0900] physics_0930 = Ok [new_slot physics_0930 "Physics"] /\
   resolve [new_slot physics_0930 "Physics"] physics_0930
   = Ok [new_slot physics_0930 "Physics"]) /\
  (resolve [math_0900] quiz_1000 = Ok [math_0900; quiz_1000] /\
   resolve [math_0900; quiz_1000] quiz_1000
   = Ok ([math_0900; quiz_1000] ++ [new_slot quiz_1000 "Quiz"])).
Proof.
  split; (split; [reflexivity | ]).
  - refine (proj1 (proj2 (resolve_idempotent_on_self_overlap
                            [math_0900] physics_0930
                            [new_slot physics_0930 "Physics"] _)) _).
    + reflexivity.
    + left. reflexivity.
  - refine (proj1 (proj2 (proj2 (resolve_idempotent_on_self_overlap
                                   [math_0900] quiz_1000
                                   [math_0900; quiz_1000] _))
                         "Quiz"%string _ _ _)); reflexivity.
Defined.

(** An interval with start before end overlaps itself. *)
Lemma overlaps_self_proper (s e : Z) :
  s < e -> overlaps (Num s) (Num e) (Num s) (Num e) = true.
Proof.
  intro H. unfold overlaps; simpl.
  replace (e <=? s) with false by (symmetry; apply Z.leb_gt; lia).
  replace (s >=? e) with false
    by (symmetry; rewrite Z.geb_leb; apply Z.leb_gt; lia).
  reflexivity.
Qed.

(** C10: a request body without className (day, room, startTime and
    endTime supplied) runs exactly like the same body with the empty
    label; it is never answered with status 400, and when the file can be
    written the answer is success with the old schedule minus the slots
    that clash with the request, which is also what is stored and
    broadcast. *)
Theorem slot_without_className_deletes (e : env) (w : world) (req : Slot.t) :
  Slot.className req = VUndefined ->
  truthy (Slot.day req) = true -> truthy (Slot.room req) = true ->
  truthy (Slot.startTime req) = true -> truthy (Slot.endTime req) = true ->
  post_schedule_slot req e w
  = post_schedule_slot
      (Slot.mk (Slot.day req) (Slot.room req) (Slot.startTime req)
               (Slot.endTime req) (VStr "")) e w /\
  (forall b, fst (post_schedule_slot req e w) <> Ok (Json 400 b)) /\
  (disk_ok e = true ->
   let result :=
     filter (fun item => negb (clashes req item)) (scheduleFile w) in
   post_schedule_slot req e w
   = (Ok (Json 200 (ScheduleBody result)),
      mkWorld result (eventsFile w) (emitted w ++ [ScheduleUpdate result]))).
Proof.
  intros Hc Hd Hr Hs He.
  assert (Hres : resolve (scheduleFile w) req
                 = Ok (filter (keep req) (scheduleFile w))).
  { apply resolve_falsy. now rewrite Hc. }
  split; [ | split].
  - unfold post_schedule_slot; simpl. rewrite Hd, Hr, Hs, He. simpl.
    unfold bind, readSchedule, lift. rewrite Hres.
    unfold resolve; simpl. reflexivity.
  - intro b. unfold post_schedule_slot. rewrite Hd, Hr, Hs, He. simpl.
    unfold bind, readSchedule, lift, try_catch, writeSchedule, emit, ret.
    rewrite Hres. destruct (disk_ok e); simpl; discriminate.
  - intros Hdisk result. subst result. rewrite <- filter_keep_not_clashes.
    now apply post_schedule_slot_ok.
Qed.

Lemma slot_without_className_deletes_witness :
  post_schedule_slot clear_0930 env0 (world_of [math_0900; chem_tue] [])
  = (Ok (Json 200 (ScheduleBody [chem_tue])),
     mkWorld [chem_tue] [] [ScheduleUpdate [chem_tue]]).
Proof.
  refine (proj2 (proj2 (slot_without_className_deletes
                          env0 (world_of [math_0900; chem_tue] [])
                          clear_0930 _ _ _ _ _)) _); reflexivity.
Defined.

(** ** Time arithmetic: the missing minutes *)

Lemma split_colon_no_colon (s : string) :
  has_colon s = false -> split_colon s = [s].
Proof.
  induction s as [ | c r IH]; simpl; [reflexivity | ].
  intro H. apply orb_false_iff in H. destruct H as [Hc Hr].
  rewrite Hc, (IH Hr). reflexivity.
Qed.

Lemma split_colon_has_colon (s : string) :
  has_colon s = true -> exists a b rest, split_colon s = a :: b :: rest.
Proof.
  induction s as [ | c r IH]; simpl; [discriminate | ].
  destruct (c =? ":")%char; simpl.
  - intros _. destruct r as [ | c' r']; simpl.
    + now exists EmptyString, EmptyString, [].
    + destruct (c' =? ":")%char.
      * now eexists _, _, _.
      * destruct (split_colon r') as [ | h t]; now eexists _, _, _.
  - intro H. destruct (IH H) as (a & b & rest & E). rewrite E.
    now eexists _, _, _.
Qed.

(** With a colon both components are read, and each counts as 0 when it
    is not a number. *)
Lemma toMinutes_with_colon (s : string) :
  has_colon s = true ->
  exists a b rest h m,
    split_colon s = a :: b :: rest /\
    or_zero (parseInt a) = Num h /\ or_zero (parseInt b) = Num m /\
    toMinutes (VStr s) = Num (h * 60 + m).
Proof.
  intro H. destruct (split_colon_has_colon s H) as (a & b & rest & E).
  assert (Hz : forall x, exists z, or_zero x = Num z).
  { intros [ | z]; simpl; eauto. }
  destruct (Hz (parseInt a)) as [h Hh]. destruct (Hz (parseInt b)) as [m Hm].
  exists a, b, rest, h, m. repeat split; trivial.
  unfold toMinutes; simpl. rewrite E; simpl. now rewrite Hh, Hm.
Qed.

(** Without a colon the minutes are [undefined] and the sum is [NaN]. *)
Lemma toMinutes_no_colon (s : string) :
  has_colon s = false -> toMinutes (VStr s) = NaN.
Proof.
  intro H. unfold toMinutes; simpl. rewrite (split_colon_no_colon s H); simpl.
  now destruct (or_zero (parseInt s)).
Qed.

(** C4: on the string "0930", which has no colon, the code does not
    default the missing minutes to 0: [split] yields one part, the
    destructured minutes are [undefined], and 930 * 60 + undefined is
    NaN, which is not an integer. *)
Theorem toMinutes_0930_no_colon_is_NaN : toMinutes (VStr "0930") = NaN.
Proof. reflexivity. Qed.

(** What the NaN does downstream: every comparison with it is false, so
    a proposal with colon-free times clashes with every slot of its
    (day, room), whatever their hours. *)
Lemma resolve_colon_free_times_clear_the_room :
  resolve [math_0900; physics_1000] lab_14 = Ok [lab_14].
Proof. reflexivity. Qed.

(** ** Event mutator *)

Lemma post_events_early (userId : value) (req : Req.t) (e : env) (w : world)
      (early : response) :
  truthy (Req.action req) = true ->
  apply_action userId req (eventsFile w) e w = (Ok (inl early), w) ->
  post_events userId req e w = (Ok early, w).
Proof.
  intros Ha Hb. unfold post_events, bind, readEvents.
  rewrite Ha; simpl. rewrite Hb. reflexivity.
Qed.

Lemma post_events_commit (userId : value) (req : Req.t) (e : env) (w : world)
      (events' : list Event.t) :
  truthy (Req.action req) = true ->
  apply_action userId req (eventsFile w) e w = (Ok (inr events'), w) ->
  disk_ok e = true ->
  post_events userId req e w
  = (Ok (Json 200 (EventsBody events')),
     mkWorld (scheduleFile w) events' (emitted w ++ [EventsUpdate events'])).
Proof.
  intros Ha Hb Hdisk. unfold post_events, bind, readEvents.
  rewrite Ha; simpl. rewrite Hb.
  unfold try_catch, bind, writeEvents, readEvents, emit, ret.
  rewrite Hdisk. reflexivity.
Qed.

Lemma filter_absent_id (i : value) (events : list Event.t) :
  (forall ev, In ev events -> strict_eq (Event.id ev) i = false) ->
  filter (fun ev => negb (strict_eq (Event.id ev) i)) events = events.
Proof.
  intro H. apply forallb_filter_id. apply forallb_forall.
  intros ev Hin. now rewrite (H ev Hin).
Qed.

(** Deleting an id that no event carries, in general: the answer is the
    success answer, the file is rewritten with the same events and the
    same events are broadcast. *)
Lemma post_events_delete_absent (userId i : value) (e : env) (w : world) :
  truthy i = true ->
  (forall ev, In ev (eventsFile w) -> strict_eq (Event.id ev) i = false) ->
  disk_ok e = true ->
  post_events userId
    (Req.mk (VStr "delete") i VUndefined VUndefined VUndefined VUndefined
            VUndefined) e w
  = (Ok (Json 200 (EventsBody (eventsFile w))),
     mkWorld (scheduleFile w) (eventsFile w)
             (emitted w ++ [EventsUpdate (eventsFile w)])).
Proof.
  intros Hi Habs Hdisk. apply post_events_commit; trivial.
  unfold apply_action; simpl. rewrite Hi; simpl.
  now rewrite (filter_absent_id i _ Habs).
Qed.

(** C2: deleting the id "nope" from a collection that holds only the
    seminar leaves the collection as it was, but the code answers with
    the same success body as a delete that removed something and
    broadcasts the collection to the viewers; no not-found is signalled. *)
Theorem delete_missing_id_answers_success :
  post_events (VStr "admin1") delete_nope env0 (world_of [] [seminar])
  = (Ok (Json 200 (EventsBody [seminar])),
     mkWorld [] [seminar] [EventsUpdate [seminar]]).
Proof. reflexivity. Qed.

(** The earlier DELETE route does what the claim asks: an id that
    matches nothing is answered with 404, and nothing is written or
    broadcast. *)
Lemma bak_delete_missing_id_not_found (i : string) (e : env) (w : world) :
  (forall ev, In ev (eventsFile w) -> strict_eq (Event.id ev) (VStr i) = false) ->
  Bak.delete_event i e w = (Ok (Json 404 (MessageBody "Not found")), w).
Proof.
  intro Habs. unfold Bak.delete_event, bind, readEvents.
  rewrite (filter_absent_id (VStr i) _ Habs), Nat.eqb_refl. reflexivity.
Qed.

(** C9: a request whose action is missing, or is none of create, update
    and delete, or is create with one of date, room, startTime, endTime,
    eventName missing, is answered with status 400 and an error message,
    and the world is left as it was: both files and the list of
    broadcasts are unchanged. *)
Theorem post_events_rejects_without_effect
        (userId : value) (req : Req.t) (e : env) (w : world) :
  truthy (Req.action req) = false
  \/ (strict_eq (Req.action req) (VStr "create") = false /\
      strict_eq (Req.action req) (VStr "update") = false /\
      strict_eq (Req.action req) (VStr "delete") = false)
  \/ (Req.action req = VStr "create" /\
      truthy (Req.date req) && truthy (Req.room req)
      && truthy (Req.startTime req) && truthy (Req.endTime req)
      && truthy (Req.eventName req) = false) ->
  exists message,
    post_events userId req e w = (Ok (Json 400 (MessageBody message)), w).
Proof.
  intros [Hmiss | H].
  - eexists. unfold post_events, bind, readEvents. rewrite Hmiss. reflexivity.
  - destruct (truthy (Req.action req)) eqn:Ha.
    2:{ eexists. unfold post_events, bind, readEvents. rewrite Ha.
        reflexivity. }
    destruct H as [(Hc & Hu & Hd) | (Hc & Hf)].
    + eexists. apply post_events_early; trivial.
      unfold apply_action. rewrite Hc, Hu, Hd. reflexivity.
    + eexists. apply post_events_early; trivial.
      unfold apply_action. rewrite Hc; simpl.
      destruct (truthy (Req.date req)), (truthy (Req.room req)),
        (truthy (Req.startTime req)), (truthy (Req.endTime req)),
        (truthy (Req.eventName req)); try discriminate Hf; reflexivity.
Qed.

Lemma post_events_rejects_without_effect_witness :
  exists message,
    post_events (VStr "admin1") archive_request env0 (world_of [] [seminar])
    = (Ok (Json 400 (MessageBody message)), world_of [] [seminar]).
Proof.
  apply (post_events_rejects_without_effect
           (VStr "admin1") archive_request env0 (world_of [] [seminar])).
  right. left. repeat split; reflexivity.
Defined.

(** C6: an update that supplies an id and a non-empty eventName and no
    other field succeeds with a collection of the same length in which,
    position by position, an event with another id is the old event
    itself, and an event with that id keeps its id, createdBy, date,
    room, startTime and endTime and takes the new eventName. *)
Theorem update_eventName_only
        (userId : value) (req : Req.t) (e : env) (w : world) :
  Req.action req = VStr "update" ->
  truthy (Req.id req) = true ->
  truthy (Req.date req) = false -> truthy (Req.room req) = false ->
  truthy (Req.startTime req) = false -> truthy (Req.endTime req) = false ->
  truthy (Req.eventName req) = true ->
  disk_ok e = true ->
  exists events',
    post_events userId req e w
    = (Ok (Json 200 (EventsBody events')),
       mkWorld (scheduleFile w) events' (emitted w ++ [EventsUpdate events'])) /\
    List.length events' = List.length (eventsFile w) /\
    forall k old,
      nth_error (eventsFile w) k = Some old ->
      exists new,
        nth_error events' k = Some new /\
        Event.id new = Event.id old /\
        Event.createdBy new = Event.createdBy old /\
        Event.date new = Event.date old /\
        Event.room new = Event.room old /\
        Event.startTime new = Event.startTime old /\
        Event.endTime new = Event.endTime old /\
        (strict_eq (Event.id old) (Req.id req) = false -> new = old) /\
        (strict_eq (Event.id old) (Req.id req) = true ->
         Event.eventName new = Req.eventName req).
Proof.
  intros Ha Hi Hd Hr Hs He Hn Hdisk.
  set (f := fun ev => if negb (strict_eq (Event.id ev) (Req.id req)) then ev
                      else patch req ev).
  exists (map f (eventsFile w)). split; [ | split].
  - apply post_events_commit; trivial.
    + now rewrite Ha.
    + unfold apply_action. rewrite Ha; simpl. rewrite Hi. reflexivity.
  - apply length_map.
  - intros k old Hk. exists (f old). split.
    + now rewrite nth_error_map, Hk.
    + unfold f, patch, or_else. rewrite Hd, Hr, Hs, He, Hn.
      destruct (strict_eq (Event.id old) (Req.id req)); simpl;
        repeat split; trivial; discriminate.
Qed.

Lemma update_eventName_only_witness :
  exists events',
    post_events (VStr "admin2") rename_seminar env0
                (world_of [] [seminar; lecture])
    = (Ok (Json 200 (EventsBody events')),
       mkWorld [] events' [EventsUpdate events']) /\
    List.length events' = 2%nat.
Proof.
  destruct (update_eventName_only
              (VStr "admin2") rename_seminar env0
              (world_of [] [seminar; lecture])
              eq_refl eq_refl eq_refl eq_refl eq_refl eq_refl eq_refl eq_refl)
    as (events' & Hrun & Hlen & _).
  exists events'. split; [exact Hrun | exact Hlen].
Defined.

Lemma update_scenario :
  post_events (VStr "admin2") rename_seminar env0
              (world_of [] [seminar; lecture])
  = (Ok (Json 200 (EventsBody
       [Event.mk (VStr "lvnj1fk0-42") (VStr "2024-05-01") (VStr "R1")
                 (VStr "10:00") (VStr "11:00") (VStr "Colloquium")
                 (VStr "admin1");
        lecture])),
     mkWorld []
       [Event.mk (VStr "lvnj1fk0-42") (VStr "2024-05-01") (VStr "R1")
                 (VStr "10:00") (VStr "11:00") (VStr "Colloquium")
                 (VStr "admin1");
        lecture]
       [EventsUpdate
          [Event.mk (VStr "lvnj1fk0-42") (VStr "2024-05-01") (VStr "R1")
                    (VStr "10:00") (VStr "11:00") (VStr "Colloquium")
                    (VStr "admin1");
           lecture]]).
Proof. reflexivity. Qed.

(** ** Creating events *)

(** A create with all five fields, when the file can be written. *)
Lemma post_events_create (userId : value) (req : Req.t) (e : env) (w : world) :
  Req.action req = VStr "create" ->
  truthy (Req.date req) = true -> truthy (Req.room req) = true ->
  truthy (Req.startTime req) = true -> truthy (Req.endTime req) = true ->
  truthy (Req.eventName req) = true ->
  disk_ok e = true ->
  let ev := Event.mk (VStr (make_id (now e) (random e)))
                     (Req.date req) (Req.room req) (Req.startTime req)
                     (Req.endTime req) (Req.eventName req) userId in
  post_events userId req e w
  = (Ok (Json 200 (EventsBody (eventsFile w ++ [ev]))),
     mkWorld (scheduleFile w) (eventsFile w ++ [ev])
             (emitted w ++ [EventsUpdate (eventsFile w ++ [ev])])).
Proof.
  intros Ha Hd Hr Hs He Hn Hdisk ev. apply post_events_commit; trivial.
  - now rewrite Ha.
  - unfold apply_action. rewrite Ha; simpl. rewrite Hd, Hr, Hs, He, Hn.
    reflexivity.
Qed.

Lemma create_scenario :
  post_events (VStr "admin1") create_seminar env0 (world_of [] [])
  = (Ok (Json 200 (EventsBody [seminar])),
     mkWorld [] [seminar] [EventsUpdate [seminar]]).
Proof. vm_compute. reflexivity. Qed.

(** C5 as stated fails: the id is a function of the clock and of the
    random draw alone and is not compared with the stored ids.  A second
    create in the same millisecond with the same draw stores a second
    event with the id of the first. *)
Lemma create_twice_same_id :
  exists new,
    eventsFile after_first_create = [seminar] /\
    eventsFile (snd (post_events (VStr "admin2") create_seminar env0
                                 after_first_create))
    = [seminar; new] /\
    Event.id new = Event.id seminar.
Proof.
  exists (Event.mk (VStr "lvnj1fk0-42") (VStr "2024-05-01") (VStr "R1")
                   (VStr "10:00") (VStr "11:00") (VStr "Seminar")
                   (VStr "admin2")).
  vm_compute. repeat split; reflexivity.
Qed.

(** *** The id scheme is injective *)

Lemma append_assoc (a b c : string) :
  ((a ++ b) ++ c = a ++ (b ++ c))%string.
Proof. induction a as [ | x a IH]; simpl; [reflexivity | now rewrite IH]. Qed.

Lemma radix_digits_app (fuel : nat) (b : Z) :
  forall n acc,
    radix_digits fuel b n acc = (radix_digits fuel b n "" ++ acc)%string.
Proof.
  induction fuel as [ | f IH]; intros n acc; simpl; [reflexivity | ].
  destruct (n <? b); [reflexivity | ].
  rewrite (IH _ (String _ acc)), (IH _ (String _ EmptyString)).
  now rewrite append_assoc.
Qed.

Lemma char_digit_char (d : Z) : 0 <= d < 36 -> char_digit (digit_char d) = d.
Proof.
  intro H. unfold char_digit, digit_char.
  destruct (d <? 10) eqn:E.
  - apply Z.ltb_lt in E. rewrite nat_ascii_embedding by lia.
    replace (Z.of_nat (48 + Z.to_nat d)) with (48 + d) by lia.
    replace (48 + d <? 58) with true by (symmetry; apply Z.ltb_lt; lia). lia.
  - apply Z.ltb_ge in E. rewrite nat_ascii_embedding by lia.
    replace (Z.of_nat (87 + Z.to_nat d)) with (87 + d) by lia.
    replace (87 + d <? 58) with false by (symmetry; apply Z.ltb_ge; lia). lia.
Qed.

Lemma digit_char_not_dash (d : Z) :
  0 <= d < 36 -> (digit_char d =? "-")%char = false.
Proof.
  intro H. apply Ascii.eqb_neq. intro E.
  apply (f_equal nat_of_ascii) in E. unfold digit_char in E.
  destruct (d <? 10) eqn:L;
    [apply Z.ltb_lt in L | apply Z.ltb_ge in L];
    rewrite nat_ascii_embedding in E by lia;
    change (nat_of_ascii "-") with 45%nat in E; lia.
Qed.

Lemma fuel_enough (n : Z) : 0 <= n -> n < 2 ^ Z.of_nat (digits_fuel n).
Proof.
  intro H. unfold digits_fuel.
  rewrite Nat2Z.inj_succ, Z2Nat.id by apply Z.log2_nonneg.
  destruct (Z.eq_dec n 0) as [-> | Hn]; [reflexivity | ].
  apply Z.log2_spec. lia.
Qed.

Section Radix.
Variable b : Z.
Hypothesis radix_range : 2 <= b <= 36.

Lemma decode_radix_digits (fuel : nat) :
  forall n acc,
    0 <= n < 2 ^ Z.of_nat fuel ->
    decode b (radix_digits fuel b n acc) 0 = decode b acc n.
Proof.
  induction fuel as [ | f IH]; intros n acc Hn.
  - simpl in *. now replace n with 0 by lia.
  - simpl radix_digits. destruct (n <? b) eqn:E.
    + apply Z.ltb_lt in E. simpl. now rewrite char_digit_char by lia.
    + apply Z.ltb_ge in E. rewrite IH.
      * simpl. rewrite char_digit_char.
        -- f_equal. rewrite Z.mul_comm. symmetry. apply Z.div_mod. lia.
        -- pose proof (Z.mod_pos_bound n b). lia.
      * split; [apply Z.div_pos; lia | ].
        apply Z.div_lt_upper_bound; [lia | ].
        rewrite Nat2Z.inj_succ, Z.pow_succ_r in Hn by lia.
        assert (0 < 2 ^ Z.of_nat f) by (apply Z.pow_pos_nonneg; lia).
        nia.
Qed.

Lemma before_dash_radix_digits (fuel : nat) :
  forall n acc,
    0 <= n ->
    before_dash (radix_digits fuel b n acc)
    = radix_digits fuel b n (before_dash acc).
Proof.
  induction fuel as [ | f IH]; intros n acc Hn; simpl; [reflexivity | ].
  destruct (n <? b) eqn:E.
  - apply Z.ltb_lt in E. simpl. now rewrite digit_char_not_dash by lia.
  - rewrite IH by (apply Z.div_pos; lia). simpl.
    rewrite digit_char_not_dash; [reflexivity | ].
    pose proof (Z.mod_pos_bound n b). lia.
Qed.

Lemma after_dash_radix_digits (fuel : nat) :
  forall n acc,
    0 <= n ->
    after_dash (radix_digits fuel b n acc) = after_dash acc.
Proof.
  induction fuel as [ | f IH]; intros n acc Hn; simpl; [reflexivity | ].
  destruct (n <? b) eqn:E.
  - apply Z.ltb_lt in E. simpl. now rewrite digit_char_not_dash by lia.
  - rewrite IH by (apply Z.div_pos; lia). simpl.
    rewrite digit_char_not_dash; [reflexivity | ].
    pose proof (Z.mod_pos_bound n b). lia.
Qed.

Lemma decode_toString (n : Z) : 0 <= n -> decode b (toString b n) 0 = n.
Proof.
  intro H. unfold toString.
  replace (n <? 0) with false by (symmetry; apply Z.ltb_ge; lia).
  rewrite decode_radix_digits; [reflexivity | ].
  split; [exact H | now apply fuel_enough].
Qed.
End Radix.

Lemma toString_nonneg (b n : Z) :
  0 <= n -> toString b n = radix_digits (digits_fuel n) b n "".
Proof.
  intro H. unfold toString.
  now replace (n <? 0) with false by (symmetry; apply Z.ltb_ge; lia).
Qed.

Lemma make_id_shape (t r : Z) :
  0 <= t ->
  make_id t r
  = radix_digits (digits_fuel t) 36 t (String "-" (toString 10 r)).
Proof.
  intro H. unfold make_id. rewrite (toString_nonneg 36 t H).
  now rewrite (radix_digits_app _ _ _ (String "-" _)).
Qed.

Lemma id_time_make_id (t r : Z) : 0 <= t -> id_time (make_id t r) = t.
Proof.
  intro H. unfold id_time. rewrite (make_id_shape t r H).
  rewrite before_dash_radix_digits by lia. simpl before_dash.
  rewrite <- (toString_nonneg 36 t H). apply decode_toString; lia.
Qed.

Lemma id_random_make_id (t r : Z) :
  0 <= t -> 0 <= r -> id_random (make_id t r) = r.
Proof.
  intros Ht Hr. unfold id_random. rewrite (make_id_shape t r Ht).
  rewrite after_dash_radix_digits by lia. simpl after_dash.
  apply decode_toString; lia.
Qed.

Lemma make_id_injective (t r t' r' : Z) :
  0 <= t -> 0 <= r -> 0 <= t' -> 0 <= r' ->
  make_id t r = make_id t' r' -> t = t' /\ r = r'.
Proof.
  intros Ht Hr Ht' Hr' E. split.
  - rewrite <- (id_time_make_id t r Ht), <- (id_time_make_id t' r' Ht').
    now rewrite E.
  - rewrite <- (id_random_make_id t r Ht Hr),
            <- (id_random_make_id t' r' Ht' Hr').
    now rewrite E.
Qed.

(** C5, amended: a create with date, room, startTime, endTime and
    eventName all present and non-empty, when the file can be written,
    yields the old collection followed by one new event, so its size is
    |E|+1; the new event carries exactly the submitted values, its
    createdBy is the caller's userId and its id is the clock in base 36,
    a hyphen and the random draw.  That id differs from each stored id
    that was made by the same scheme from another (clock, draw) pair,
    whatever the other stored ids are. *)
Theorem create_appends_event
        (userId : value) (req : Req.t) (e : env) (w : world) :
  Req.action req = VStr "create" ->
  truthy (Req.date req) = true -> truthy (Req.room req) = true ->
  truthy (Req.startTime req) = true -> truthy (Req.endTime req) = true ->
  truthy (Req.eventName req) = true ->
  disk_ok e = true ->
  exists new,
    post_events userId req e w
    = (Ok (Json 200 (EventsBody (eventsFile w ++ [new]))),
       mkWorld (scheduleFile w) (eventsFile w ++ [new])
               (emitted w ++ [EventsUpdate (eventsFile w ++ [new])])) /\
    List.length (eventsFile w ++ [new]) = S (List.length (eventsFile w)) /\
    Event.id new = VStr (make_id (now e) (random e)) /\
    Event.date new = Req.date req /\
    Event.room new = Req.room req /\
    Event.startTime new = Req.startTime req /\
    Event.endTime new = Req.endTime req /\
    Event.eventName new = Req.eventName req /\
    Event.createdBy new = userId /\
    (0 <= now e -> 0 <= random e ->
     forall old t r,
       In old (eventsFile w) ->
       0 <= t -> 0 <= r ->
       Event.id old = VStr (make_id t r) ->
       t <> now e \/ r <> random e ->
       Event.id old <> Event.id new).
Proof.
  intros Ha Hd Hr Hs He Hn Hdisk.
  eexists. split; [now apply post_events_create | ].
  split; [rewrite length_app; simpl; lia | ].
  do 7 (split; [reflexivity | ]).
  simpl. intros Hnow Hrand old t r Hin Ht Hr' Hid Hneq Heq.
  rewrite Hid in Heq. inversion Heq as [Hs'].
  apply make_id_injective in Hs'; trivial. lia.
Qed.

Lemma create_appends_event_witness :
  exists new,
    post_events (VStr "admin1") create_seminar env0
                (world_of [] [seminar; lecture])
    = (Ok (Json 200 (EventsBody ([seminar; lecture] ++ [new]))),
       mkWorld [] ([seminar; lecture] ++ [new])
               ([] ++ [EventsUpdate ([seminar; lecture] ++ [new])])) /\
    Event.createdBy new = VStr "admin1" /\
    Event.id lecture <> Event.id new.
Proof.
  destruct (create_appends_event
              (VStr "admin1") create_seminar env0
              (world_of [] [seminar; lecture])
              eq_refl eq_refl eq_refl eq_refl eq_refl eq_refl eq_refl)
    as (new & Hrun & _ & _ & _ & _ & _ & _ & _ & Hby & Hfresh).
  exists new. split; [exact Hrun | split; [exact Hby | ]].
  apply (Hfresh ltac:(simpl; lia) ltac:(simpl; lia) lecture 1714550400001 7).
  - simpl. right. now left.
  - lia.
  - lia.
  - vm_compute. reflexivity.
  - left. simpl. lia.
Defined.

(** ** The slot handler at its edges *)

(** A body without startTime is answered with 400 before the schedule is
    read. *)
Lemma post_schedule_slot_missing_field (e : env) (w : world) (req : Slot.t) :
  truthy (Slot.day req) && truthy (Slot.room req)
  && truthy (Slot.startTime req) && truthy (Slot.endTime req) = false ->
  post_schedule_slot req e w = (Ok (Json 400 (ErrorBody "missing fields")), w).
Proof.
  intro H. unfold post_schedule_slot.
  destruct (truthy (Slot.day req)), (truthy (Slot.room req)),
    (truthy (Slot.startTime req)), (truthy (Slot.endTime req));
    try discriminate H; reflexivity.
Qed.

(** A className that is a non-zero number has no [trim]: the handler
    throws before it writes or broadcasts. *)
Lemma post_schedule_slot_numeric_label (e : env) (w : world) :
  post_schedule_slot
    (Slot.mk (VStr "Mon") (VStr "Room1") (VStr "09:00") (VStr "10:00") (VNum 7))
    e w
  = (Throw TypeError, w).
Proof. reflexivity. Qed.

(** The second scenario of the specification, through the handler: the
    adjacent class is stored next to the old one and both are broadcast. *)
Lemma post_schedule_slot_adjacent :
  post_schedule_slot physics_1000 env0 (world_of [math_0900] [])
  = (Ok (Json 200 (ScheduleBody [math_0900; physics_1000])),
     mkWorld [math_0900; physics_1000] []
             [ScheduleUpdate [math_0900; physics_1000]]).
Proof. reflexivity. Qed.

(** ** The earlier create route *)

(** The earlier POST /api/events made ids by the same scheme and stored
    the same event; it answered 201 with the event itself. *)
Lemma bak_post_events_create (userId : value) (req : Req.t) (e : env) (w : world) :
  truthy (Req.date req) = true -> truthy (Req.room req) = true ->
  truthy (Req.startTime req) = true -> truthy (Req.endTime req) = true ->
  truthy (Req.eventName req) = true ->
  disk_ok e = true ->
  let ev := Event.mk (VStr (make_id (now e) (random e)))
                     (Req.date req) (Req.room req) (Req.startTime req)
                     (Req.endTime req) (Req.eventName req) userId in
  Bak.post_events userId req e w
  = (Ok (Json 201 (EventBody ev)),
     mkWorld (scheduleFile w) (eventsFile w ++ [ev])
             (emitted w ++ [EventsUpdate (eventsFile w ++ [ev])])).
Proof.
  intros Hd Hr Hs He Hn Hdisk ev. unfold Bak.post_events.
  rewrite Hd, Hr, Hs, He, Hn. simpl.
  unfold bind, readEvents, fresh_id, bind, dateNow, randomBelow10000, ret,
    writeEvents, emit.
  rewrite Hdisk. reflexivity.
Qed.

(** * Further properties of the server *)

(** ** White space *)

Lemma trimStart_head (s : string) :
  trimStart s = EmptyString \/
  exists c r, trimStart s = String c r /\ is_space c = false.
Proof.
  induction s as [ | c r IH]; simpl; [now left | ].
  destruct (is_space c) eqn:E; [exact IH | ].
  right. now exists c, r.
Qed.

Lemma trimEnd_head (c : ascii) (r : string) :
  is_space c = false -> trimEnd (String c r) = String c (trimEnd r).
Proof. intro H. simpl. rewrite H. now destruct (trimEnd r). Qed.

Lemma trimEnd_idem (s : string) : trimEnd (trimEnd s) = trimEnd s.
Proof.
  induction s as [ | c r IH]; simpl; [reflexivity | ].
  destruct (trimEnd r) as [ | c' r'] eqn:E.
  - destruct (is_space c) eqn:Hc; simpl; [reflexivity | now rewrite Hc].
  - change (trimEnd (String c (String c' r'))) with
      (match trimEnd (String c' r') with
       | EmptyString => if is_space c then EmptyString else String c EmptyString
       | x => String c x
       end).
    now rewrite IH.
Qed.

(** [trim] of a trimmed string is the string. *)
Lemma trim_idem (s : string) : trim (trim s) = trim s.
Proof.
  unfold trim. destruct (trimStart_head s) as [E | (c & r & E & Hc)]; rewrite E.
  - reflexivity.
  - rewrite (trimEnd_head c r Hc). simpl trimStart. rewrite Hc.
    rewrite <- (trimEnd_head c r Hc). apply trimEnd_idem.
Qed.

(** ** The slot route, case by case *)

Lemma post_schedule_slot_cases (req : Slot.t) (e : env) (w : world) :
  post_schedule_slot req e w = (Ok (Json 400 (ErrorBody "missing fields")), w)
  \/ post_schedule_slot req e w = (Throw TypeError, w)
  \/ (disk_ok e = false /\
      post_schedule_slot req e w
      = (Ok (Json 500 (ErrorBody "write failed")), w))
  \/ exists result,
      truthy (Slot.day req) = true /\ truthy (Slot.room req) = true /\
      truthy (Slot.startTime req) = true /\ truthy (Slot.endTime req) = true /\
      resolve (scheduleFile w) req = Ok result /\
      disk_ok e = true /\
      post_schedule_slot req e w
      = (Ok (Json 200 (ScheduleBody result)),
         mkWorld result (eventsFile w) (emitted w ++ [ScheduleUpdate result])).
Proof.
  destruct (truthy (Slot.day req)) eqn:Hd;
    [ | left; unfold post_schedule_slot; now rewrite Hd].
  destruct (truthy (Slot.room req)) eqn:Hr;
    [ | left; unfold post_schedule_slot; now rewrite Hd, Hr].
  destruct (truthy (Slot.startTime req)) eqn:Hs;
    [ | left; unfold post_schedule_slot; now rewrite Hd, Hr, Hs].
  destruct (truthy (Slot.endTime req)) eqn:He;
    [ | left; unfold post_schedule_slot; now rewrite Hd, Hr, Hs, He].
  right.
  destruct (resolve (scheduleFile w) req) as [result | x] eqn:Hres.
  - destruct (disk_ok e) eqn:Hdisk.
    + right. right. exists result. repeat (split; trivial).
      now apply post_schedule_slot_ok.
    + right. left. split; trivial.
      unfold post_schedule_slot. rewrite Hd, Hr, Hs, He. simpl.
      unfold bind, readSchedule, lift, try_catch, writeSchedule, ret.
      now rewrite Hres, Hdisk.
  - left. assert (x = TypeError) as ->.
    { unfold resolve, trimmedName, trim_method in Hres.
      destruct (or_else (Slot.className req) (VStr "")); try congruence.
      destruct (truthy (VStr (trim s))); discriminate. }
    unfold post_schedule_slot. rewrite Hd, Hr, Hs, He. simpl.
    unfold bind, readSchedule, lift. now rewrite Hres.
Qed.

(** ** Invariants of the stored schedule *)

Lemma strict_eq_sym (a b : value) : strict_eq a b = strict_eq b a.
Proof.
  destruct a as [ | | x | x | x], b as [ | | y | y | y]; simpl; try reflexivity.
  - now destruct x, y.
  - apply Z.eqb_sym.
  - apply String.eqb_sym.
Qed.

Lemma le_ge (a b : number) : le a b = ge b a.
Proof.
  destruct a as [ | x], b as [ | y]; simpl; try reflexivity.
  now rewrite Z.geb_leb.
Qed.

Lemma overlaps_sym (s1 e1 s2 e2 : number) :
  overlaps s1 e1 s2 e2 = overlaps s2 e2 s1 e1.
Proof.
  unfold overlaps. rewrite (le_ge e1 s2), (le_ge e2 s1). now rewrite orb_comm.
Qed.

Lemma clashes_sym (a b : Slot.t) : clashes a b = clashes b a.
Proof.
  unfold clashes, same_day_room.
  rewrite (strict_eq_sym (Slot.day b)), (strict_eq_sym (Slot.room b)).
  f_equal. apply overlaps_sym.
Qed.

Lemma clash_free_filter (f : Slot.t -> bool) (schedule : list Slot.t) :
  clash_free schedule = true -> clash_free (filter f schedule) = true.
Proof.
  induction schedule as [ | a rest IH]; simpl; [trivial | ].
  intro H. apply andb_true_iff in H. destruct H as [Ha Hrest].
  destruct (f a); simpl; [ | now apply IH].
  apply andb_true_iff. split; [ | now apply IH].
  apply forallb_forall. intros b Hb. apply filter_In in Hb.
  rewrite forallb_forall in Ha. now apply Ha.
Qed.

Lemma clash_free_snoc (schedule : list Slot.t) (n : Slot.t) :
  clash_free schedule = true ->
  (forall a, In a schedule -> clashes a n = false) ->
  clash_free (schedule ++ [n]) = true.
Proof.
  induction schedule as [ | a rest IH]; simpl; [trivial | ].
  intros H Hn. apply andb_true_iff in H. destruct H as [Ha Hrest].
  apply andb_true_iff. split.
  - rewrite forallb_app, Ha. simpl. rewrite (Hn a) by now left. reflexivity.
  - apply IH; trivial. intros b Hb. apply Hn. now right.
Qed.

Lemma resolve_clash_free (schedule : list Slot.t) (p : Slot.t)
      (result : list Slot.t) :
  resolve schedule p = Ok result ->
  clash_free schedule = true -> clash_free result = true.
Proof.
  intros Hres Hfree. unfold resolve in Hres.
  destruct (trimmedName (Slot.className p)) as [name | x]; [ | discriminate].
  destruct (truthy (VStr name)); inversion Hres; subst result.
  - apply clash_free_snoc; [now apply clash_free_filter | ].
    intros a Ha. apply filter_keep_clashes in Ha. destruct Ha as [_ Ha].
    rewrite clashes_sym. exact Ha.
  - now apply clash_free_filter.
Qed.

Lemma post_schedule_slot_clash_free (req : Slot.t) (e : env) (w : world) :
  clash_free (scheduleFile w) = true ->
  clash_free (scheduleFile (snd (post_schedule_slot req e w))) = true.
Proof.
  intro H.
  destruct (post_schedule_slot_cases req e w)
    as [E | [E | [[_ E] | (result & _ & _ & _ & _ & Hres & _ & E)]]];
    rewrite E; simpl; trivial.
  now apply (resolve_clash_free _ _ _ Hres).
Qed.

(** X1: however many slot requests are served, with whatever bodies and
    whether or not the writes succeed, a stored schedule in which no two
    slots of the same day and room overlap stays such a schedule. *)
Theorem serve_slots_clash_free (reqs : list (env * Slot.t)) :
  forall w,
    clash_free (scheduleFile w) = true ->
    clash_free (scheduleFile (serve_slots reqs w)) = true.
Proof.
  induction reqs as [ | [e req] rest IH]; intros w H; simpl; [exact H | ].
  apply IH. now apply post_schedule_slot_clash_free.
Qed.

Lemma serve_slots_clash_free_witness :
  scheduleFile (serve_slots [(env0, physics_0930); (env0, physics_1000)]
                            (world_of [math_0900; chem_tue] []))
  = [chem_tue; physics_1000] /\
  clash_free (scheduleFile
                (serve_slots [(env0, physics_0930); (env0, physics_1000)]
                             (world_of [math_0900; chem_tue] []))) = true.
Proof.
  split; [reflexivity | ].
  apply (serve_slots_clash_free
           [(env0, physics_0930); (env0, physics_1000)]
           (world_of [math_0900; chem_tue] [])).
  reflexivity.
Defined.

Lemma forallb_filter_keep {A} (g f : A -> bool) (l : list A) :
  forallb g l = true -> forallb g (filter f l) = true.
Proof.
  intro H. apply forallb_forall. intros x Hx. apply filter_In in Hx.
  rewrite forallb_forall in H. now apply H.
Qed.

Lemma resolve_well_formed (schedule : list Slot.t) (p : Slot.t)
      (result : list Slot.t) :
  truthy (Slot.day p) = true -> truthy (Slot.room p) = true ->
  truthy (Slot.startTime p) = true -> truthy (Slot.endTime p) = true ->
  resolve schedule p = Ok result ->
  forallb well_formed_slot schedule = true ->
  forallb well_formed_slot result = true.
Proof.
  intros Hd Hr Hs He Hres Hwf. unfold resolve, trimmedName, trim_method in Hres.
  destruct (or_else (Slot.className p) (VStr "")) as [ | | b | n | s];
    try discriminate.
  destruct (truthy (VStr (trim s))) eqn:Hn; inversion Hres; subst result.
  - rewrite forallb_app. rewrite forallb_filter_keep by exact Hwf. simpl.
    unfold well_formed_slot; simpl. rewrite Hd, Hr, Hs, He. simpl in *.
    now rewrite Hn, trim_idem, String.eqb_refl.
  - now apply forallb_filter_keep.
Qed.

Lemma post_schedule_slot_well_formed (req : Slot.t) (e : env) (w : world) :
  forallb well_formed_slot (scheduleFile w) = true ->
  forallb well_formed_slot (scheduleFile (snd (post_schedule_slot req e w)))
  = true.
Proof.
  intro H.
  destruct (post_schedule_slot_cases req e w)
    as [E | [E | [[_ E] | (result & Hd & Hr & Hs & He & Hres & _ & E)]]];
    rewrite E; simpl; trivial.
  now apply (resolve_well_formed _ _ _ Hd Hr Hs He Hres).
Qed.

(** X2: the slot route only ever stores slots whose day, room, startTime
    and endTime are present and non-empty and whose className is a
    non-empty string without leading or trailing white space: a stored
    schedule of such slots stays one under any run of requests. *)
Theorem serve_slots_well_formed (reqs : list (env * Slot.t)) :
  forall w,
    forallb well_formed_slot (scheduleFile w) = true ->
    forallb well_formed_slot (scheduleFile (serve_slots reqs w)) = true.
Proof.
  induction reqs as [ | [e req] rest IH]; intros w H; simpl; [exact H | ].
  apply IH. now apply post_schedule_slot_well_formed.
Qed.

Lemma serve_slots_well_formed_witness :
  scheduleFile (serve_slots [(env0, physics_0930); (env0, blank_0930)]
                            (world_of [chem_tue] []))
  = [chem_tue] /\
  forallb well_formed_slot
          (scheduleFile (serve_slots [(env0, physics_0930); (env0, blank_0930)]
                                     (world_of [chem_tue] []))) = true.
Proof.
  split; [reflexivity | ].
  apply (serve_slots_well_formed
           [(env0, physics_0930); (env0, blank_0930)]
           (world_of [chem_tue] [])).
  reflexivity.
Defined.

(** ** Times without a colon *)

Lemma toMinutes_String (v : value) : toMinutes v = toMinutes (VStr (String_ v)).
Proof. reflexivity. Qed.




(** ** The slot route: rejections, failures and what it leaves alone *)

(** X4: the slot route answers 400 'missing fields' exactly when one of
    day, room, startTime, endTime is absent or falsy (className is not
    looked at), and then it has read, written and broadcast nothing. *)
Theorem post_schedule_slot_rejects_iff (req : Slot.t) (e : env) (w : world) :
  (fst (post_schedule_slot req e w) = Ok (Json 400 (ErrorBody "missing fields"))
   <-> truthy (Slot.day req) && truthy (Slot.room req)
       && truthy (Slot.startTime req) && truthy (Slot.endTime req) = false) /\
  (fst (post_schedule_slot req e w) = Ok (Json 400 (ErrorBody "missing fields"))
   -> snd (post_schedule_slot req e w) = w).
Proof.
  assert (Hback :
    truthy (Slot.day req) && truthy (Slot.room req)
    && truthy (Slot.startTime req) && truthy (Slot.endTime req) = false ->
    post_schedule_slot req e w
    = (Ok (Json 400 (ErrorBody "missing fields")), w))
    by apply post_schedule_slot_missing_field.
  destruct (truthy (Slot.day req) && truthy (Slot.room req)
            && truthy (Slot.startTime req) && truthy (Slot.endTime req)) eqn:T.
  - destruct (post_schedule_slot_cases req e w)
      as [E | [E | [[_ E] | (result & _ & _ & _ & _ & _ & _ & E)]]];
      rewrite E; simpl; split; try split; trivial; try discriminate.
    intros _. unfold post_schedule_slot in E.
    repeat rewrite andb_true_iff in T. destruct T as [[[Hd Hr] Hs] He].
    rewrite Hd, Hr, Hs, He in E. simpl in E.
    unfold bind, readSchedule, lift in E.
    destruct (resolve (scheduleFile w) req); [ | discriminate E].
    unfold try_catch, bind, writeSchedule, readSchedule, emit, ret in E.
    destruct (disk_ok e); discriminate E.
  - rewrite (Hback eq_refl). simpl. repeat split; trivial.
Qed.

(** X5: with the four required fields present, a className that is
    truthy and is not a string (a non-zero number, [true]) makes the
    handler throw a TypeError at [.trim()]; nothing is written and
    nothing is broadcast. *)
Theorem post_schedule_slot_label_not_a_string
        (req : Slot.t) (e : env) (w : world) :
  truthy (Slot.day req) = true -> truthy (Slot.room req) = true ->
  truthy (Slot.startTime req) = true -> truthy (Slot.endTime req) = true ->
  truthy (Slot.className req) = true ->
  is_string (Slot.className req) = false ->
  post_schedule_slot req e w = (Throw TypeError, w).
Proof.
  intros Hd Hr Hs He Hc Hn. unfold post_schedule_slot.
  rewrite Hd, Hr, Hs, He. simpl.
  unfold bind, readSchedule, lift, resolve, trimmedName, or_else.
  rewrite Hc. destruct (Slot.className req); try discriminate Hn; reflexivity.
Qed.

Lemma post_schedule_slot_label_not_a_string_witness :
  post_schedule_slot
    (Slot.mk (VStr "Mon") (VStr "Room1") (VStr "09:00") (VStr "10:00")
             (VBool true))
    env0 (world_of [math_0900] [])
  = (Throw TypeError, world_of [math_0900] []).
Proof.
  apply (post_schedule_slot_label_not_a_string
           (Slot.mk (VStr "Mon") (VStr "Room1") (VStr "09:00") (VStr "10:00")
                    (VBool true))
           env0 (world_of [math_0900] [])); reflexivity.
Defined.

(** X6: whatever the request, the slot route leaves the events file
    alone and never broadcasts events; either it answers 200 and then
    the body, the schedule file and the one broadcast it adds are the
    same schedule, or it changes nothing at all and does not answer 200. *)
Theorem post_schedule_slot_effects (req : Slot.t) (e : env) (w : world) :
  eventsFile (snd (post_schedule_slot req e w)) = eventsFile w /\
  ((exists result,
       fst (post_schedule_slot req e w) = Ok (Json 200 (ScheduleBody result)) /\
       scheduleFile (snd (post_schedule_slot req e w)) = result /\
       emitted (snd (post_schedule_slot req e w))
       = emitted w ++ [ScheduleUpdate result])
   \/ (snd (post_schedule_slot req e w) = w /\
       forall b, fst (post_schedule_slot req e w) <> Ok (Json 200 b))).
Proof.
  destruct (post_schedule_slot_cases req e w)
    as [E | [E | [[_ E] | (result & _ & _ & _ & _ & _ & _ & E)]]];
    rewrite E; simpl; split; trivial;
    try (right; split; [reflexivity | intro b; discriminate]).
  left. now exists result.
Qed.

(** X7: when the schedule file cannot be written, the slot route never
    answers 200 and broadcasts nothing, whatever the request. *)
Theorem post_schedule_slot_write_failure (req : Slot.t) (e : env) (w : world) :
  disk_ok e = false ->
  emitted (snd (post_schedule_slot req e w)) = emitted w /\
  (forall b, fst (post_schedule_slot req e w) <> Ok (Json 200 b)) /\
  (truthy (Slot.day req) = true -> truthy (Slot.room req) = true ->
   truthy (Slot.startTime req) = true -> truthy (Slot.endTime req) = true ->
   is_string (or_else (Slot.className req) (VStr "")) = true ->
   fst (post_schedule_slot req e w) = Ok (Json 500 (ErrorBody "write failed"))).
Proof.
  intro Hdisk. split; [ | split].
  - destruct (post_schedule_slot_cases req e w)
      as [E | [E | [[_ E] | (result & _ & _ & _ & _ & _ & Hd & _)]]];
      try (rewrite E; reflexivity). congruence.
  - intro b. destruct (post_schedule_slot_cases req e w)
      as [E | [E | [[_ E] | (result & _ & _ & _ & _ & _ & Hd & _)]]];
      try (rewrite E; discriminate). congruence.
  - intros Hd Hr Hs He Hc. unfold post_schedule_slot.
    rewrite Hd, Hr, Hs, He. simpl.
    unfold bind, readSchedule, lift, resolve, trimmedName, trim_method.
    destruct (or_else (Slot.className req) (VStr "")); try discriminate Hc.
    unfold try_catch, bind, writeSchedule, ret.
    destruct (truthy (VStr (trim s))); now rewrite Hdisk.
Qed.

Lemma post_schedule_slot_write_failure_witness :
  fst (post_schedule_slot physics_0930 (mkEnv false 0 0)
                          (world_of [math_0900] []))
  = Ok (Json 500 (ErrorBody "write failed")).
Proof.
  refine (proj2 (proj2 (post_schedule_slot_write_failure
                          physics_0930 (mkEnv false 0 0)
                          (world_of [math_0900] []) _)) _ _ _ _ _);
    reflexivity.
Defined.

(** ** Time arithmetic on well-formed and malformed strings *)

(** X8: on a value whose string form has at most 300 characters (so
    that no component reaches the range where a double is infinite),
    [toMinutes] is NaN exactly when the string form has no colon. *)
Theorem toMinutes_NaN_iff (v : value) :
  (String.length (String_ v) <= 300)%nat ->
  (toMinutes v = NaN <-> has_colon (String_ v) = false).
Proof.
  intros _. rewrite toMinutes_String. split.
  - intro H. destruct (has_colon (String_ v)) eqn:E; [ | reflexivity].
    destruct (toMinutes_with_colon _ E) as (a & b & rest & h & m & _ & _ & _ & Hm).
    congruence.
  - apply toMinutes_no_colon.
Qed.

Lemma toMinutes_NaN_iff_witness :
  toMinutes (VStr "1430") = NaN /\ toMinutes (VStr "14:30") <> NaN.
Proof.
  split.
  - apply (proj2 (toMinutes_NaN_iff (VStr "1430") ltac:(simpl; lia))).
    reflexivity.
  - intro H.
    apply (proj1 (toMinutes_NaN_iff (VStr "14:30") ltac:(simpl; lia))) in H.
    discriminate H.
Defined.

Lemma is_digit_not_colon (c : ascii) : is_digit c = true -> (c =? ":")%char = false.
Proof.
  intro H. destruct (c =? ":")%char eqn:E; [ | reflexivity].
  apply Ascii.eqb_eq in E. subst c. discriminate H.
Qed.

Lemma only_digits_no_colon (s : string) :
  only_digits s = true -> has_colon s = false.
Proof.
  induction s as [ | c r IH]; simpl; [reflexivity | ].
  intro H. apply andb_true_iff in H. destruct H as [Hc Hr].
  now rewrite (is_digit_not_colon c Hc), (IH Hr).
Qed.

Lemma split_colon_app (a r : string) :
  has_colon a = false ->
  split_colon (a ++ String ":" r) = a :: split_colon r.
Proof.
  induction a as [ | c a IH]; simpl; [reflexivity | ].
  intro H. apply orb_false_iff in H. destruct H as [Hc Ha].
  now rewrite Hc, (IH Ha).
Qed.

Lemma digit_of_char_digit (c : ascii) (d : Z) :
  digit_of c = Some d -> char_digit c = d.
Proof.
  unfold digit_of, char_digit.
  destruct ((48 <=? nat_of_ascii c)%nat && (nat_of_ascii c <=? 57)%nat) eqn:E;
    [ | discriminate].
  apply andb_true_iff in E. destruct E as [E1 E2].
  apply Nat.leb_le in E1, E2. intro H. inversion H.
  replace (Z.of_nat (nat_of_ascii c) <? 58) with true
    by (symmetry; apply Z.ltb_lt; lia).
  reflexivity.
Qed.

Lemma digits_value_only_digits (s : string) :
  only_digits s = true ->
  forall a, digits_value s (Some a) = Some (decode 10 s a).
Proof.
  induction s as [ | c r IH]; cbn [only_digits digits_value decode];
    [reflexivity | ].
  intros H a. apply andb_true_iff in H. destruct H as [Hc Hr].
  unfold is_digit in Hc. destruct (digit_of c) as [d | ] eqn:E; [ | discriminate].
  rewrite (digit_of_char_digit c d E), (IH Hr).
  now replace (10 * a + d) with (a * 10 + d) by lia.
Qed.

Lemma parseInt_all_digits (s : string) :
  all_digits s = true -> parseInt s = Num (decode 10 s 0).
Proof.
  unfold all_digits. destruct s as [ | c r]; [discriminate | ]. simpl.
  intro H. apply andb_true_iff in H. destruct H as [Hc Hr].
  assert (Hhead : parseInt (String c r)
                  = match digits_value (String c r) None with
                    | Some v => Num (1 * v)
                    | None => NaN
                    end).
  { clear Hr. destruct c as [[] [] [] [] [] [] [] []];
      vm_compute in Hc; try discriminate Hc; reflexivity. }
  rewrite Hhead. cbn [digits_value decode]. unfold is_digit in Hc.
  destruct (digit_of c) as [d | ] eqn:E; [ | discriminate].
  rewrite (digits_value_only_digits r Hr).
  rewrite (digit_of_char_digit c d E), Z.mul_1_l.
  now replace (10 * 0 + d) with (0 * 10 + d) by lia.
Qed.

(** X9: for two non-empty strings of decimal digits [a] and [b] whose
    minutes 60 * a + b stay below 2^53 (where doubles are exact), the
    time [a:b] is read as 60 times the decimal value of [a] plus the
    decimal value of [b]; leading zeros are accepted, and nothing bounds
    hours by 23 or minutes by 59. *)
Theorem toMinutes_digits (a b : string) :
  all_digits a = true -> all_digits b = true ->
  decode 10 a 0 * 60 + decode 10 b 0 < 2 ^ 53 ->
  toMinutes (VStr (a ++ ":" ++ b)) = Num (decode 10 a 0 * 60 + decode 10 b 0).
Proof.
  intros Ha Hb _. unfold toMinutes. simpl String_.
  assert (Hna : has_colon a = false).
  { apply only_digits_no_colon. unfold all_digits in Ha.
    now apply andb_true_iff in Ha. }
  assert (Hnb : has_colon b = false).
  { apply only_digits_no_colon. unfold all_digits in Hb.
    now apply andb_true_iff in Hb. }
  change (a ++ ":" ++ b)%string with (a ++ String ":" b)%string.
  rewrite (split_colon_app a b Hna), (split_colon_no_colon b Hnb). simpl.
  now rewrite (parseInt_all_digits a Ha), (parseInt_all_digits b Hb).
Qed.

Lemma toMinutes_digits_witness :
  toMinutes (VStr "25:075") = Num (25 * 60 + 75).
Proof.
  apply (toMinutes_digits "25" "075"); reflexivity.
Defined.

(** ** The event route, case by case *)

Lemma apply_action_cases (userId : value) (req : Req.t)
      (events : list Event.t) (e : env) (w : world) :
  (exists message,
      apply_action userId req events e w
      = (Ok (inl (Json 400 (MessageBody message))), w))
  \/ (exists events', apply_action userId req events e w = (Ok (inr events'), w)).
Proof.
  unfold apply_action.
  destruct (strict_eq (Req.action req) (VStr "create")).
  - destruct (negb (truthy (Req.date req)) || negb (truthy (Req.room req))
              || negb (truthy (Req.startTime req))
              || negb (truthy (Req.endTime req))
              || negb (truthy (Req.eventName req))).
    + left. now eexists.
    + right. now eexists.
  - destruct (strict_eq (Req.action req) (VStr "update")).
    + destruct (negb (truthy (Req.id req))); [left | right]; now eexists.
    + destruct (strict_eq (Req.action req) (VStr "delete")).
      * destruct (negb (truthy (Req.id req))); [left | right]; now eexists.
      * left. now eexists.
Qed.

Lemma post_events_cases (userId : value) (req : Req.t) (e : env) (w : world) :
  (exists message,
      post_events userId req e w = (Ok (Json 400 (MessageBody message)), w))
  \/ (disk_ok e = false /\
      post_events userId req e w
      = (Ok (Json 500 (MessageBody "write failed")), w))
  \/ (exists events',
         disk_ok e = true /\
         apply_action userId req (eventsFile w) e w = (Ok (inr events'), w) /\
         post_events userId req e w
         = (Ok (Json 200 (EventsBody events')),
            mkWorld (scheduleFile w) events'
                    (emitted w ++ [EventsUpdate events']))).
Proof.
  destruct (truthy (Req.action req)) eqn:Ha.
  2:{ left. eexists. unfold post_events, bind, readEvents. now rewrite Ha. }
  destruct (apply_action_cases userId req (eventsFile w) e w)
    as [[message Hm] | [events' He]].
  - left. exists message. now apply post_events_early.
  - right. destruct (disk_ok e) eqn:Hdisk.
    + right. exists events'. repeat split; trivial.
      now apply post_events_commit.
    + left. split; trivial. unfold post_events, bind, readEvents.
      rewrite Ha; simpl. rewrite He.
      unfold try_catch, bind, writeEvents, ret. now rewrite Hdisk.
Qed.

(** X10: whatever the request, the event route leaves the schedule file
    alone and never broadcasts a schedule; either it answers 200 and
    then the body, the events file and the one broadcast it adds are the
    same collection, or it changes nothing at all and does not answer
    200. *)
Theorem post_events_effects
        (userId : value) (req : Req.t) (e : env) (w : world) :
  scheduleFile (snd (post_events userId req e w)) = scheduleFile w /\
  ((exists events',
       fst (post_events userId req e w) = Ok (Json 200 (EventsBody events')) /\
       eventsFile (snd (post_events userId req e w)) = events' /\
       emitted (snd (post_events userId req e w))
       = emitted w ++ [EventsUpdate events'])
   \/ (snd (post_events userId req e w) = w /\
       forall b, fst (post_events userId req e w) <> Ok (Json 200 b))).
Proof.
  destruct (post_events_cases userId req e w)
    as [[message E] | [[_ E] | (events' & _ & _ & E)]];
    rewrite E; simpl; split; trivial;
    try (right; split; [reflexivity | intro b; discriminate]).
  left. now exists events'.
Qed.

(** X11: when the events file cannot be written, the event route never
    answers 200 and broadcasts nothing; a create with all its fields is
    answered 500 'write failed'. *)
Theorem post_events_write_failure
        (userId : value) (req : Req.t) (e : env) (w : world) :
  disk_ok e = false ->
  emitted (snd (post_events userId req e w)) = emitted w /\
  (forall b, fst (post_events userId req e w) <> Ok (Json 200 b)) /\
  (Req.action req = VStr "create" ->
   truthy (Req.date req) && truthy (Req.room req)
   && truthy (Req.startTime req) && truthy (Req.endTime req)
   && truthy (Req.eventName req) = true ->
   fst (post_events userId req e w) = Ok (Json 500 (MessageBody "write failed"))).
Proof.
  intro Hdisk. split; [ | split].
  - destruct (post_events_cases userId req e w)
      as [[message E] | [[_ E] | (events' & Hd & _)]];
      try (rewrite E; reflexivity). congruence.
  - intro b. destruct (post_events_cases userId req e w)
      as [[message E] | [[_ E] | (events' & Hd & _)]];
      try (rewrite E; discriminate). congruence.
  - intros Ha Hf. repeat rewrite andb_true_iff in Hf.
    destruct Hf as [[[[Hd Hr] Hs] He] Hn].
    unfold post_events, bind, readEvents. rewrite Ha; simpl.
    unfold apply_action; simpl. rewrite Ha; simpl.
    rewrite Hd, Hr, Hs, He, Hn; simpl.
    unfold bind, fresh_id, bind, dateNow, randomBelow10000, ret, try_catch,
      writeEvents.
    now rewrite Hdisk.
Qed.

Lemma post_events_write_failure_witness :
  fst (post_events (VStr "admin1") create_seminar (mkEnv false 0 0)
                   (world_of [] [lecture]))
  = Ok (Json 500 (MessageBody "write failed")).
Proof.
  refine (proj2 (proj2 (post_events_write_failure
                          (VStr "admin1") create_seminar (mkEnv false 0 0)
                          (world_of [] [lecture]) _)) _ _);
    reflexivity.
Defined.

(** X12: an update or a delete whose id is absent or falsy is answered
    400 'id is required', and nothing is written or broadcast. *)
Theorem post_events_id_required
        (userId : value) (req : Req.t) (e : env) (w : world) :
  Req.action req = VStr "update" \/ Req.action req = VStr "delete" ->
  truthy (Req.id req) = false ->
  post_events userId req e w = (Ok (Json 400 (MessageBody "id is required")), w).
Proof.
  intros Ha Hi. apply post_events_early.
  - destruct Ha as [-> | ->]; reflexivity.
  - unfold apply_action. destruct Ha as [-> | ->]; simpl; now rewrite Hi.
Qed.

Lemma post_events_id_required_witness :
  post_events (VStr "admin1")
    (Req.mk (VStr "delete") (VStr "") VUndefined VUndefined VUndefined
            VUndefined VUndefined)
    env0 (world_of [] [seminar])
  = (Ok (Json 400 (MessageBody "id is required")), world_of [] [seminar]).
Proof.
  apply (post_events_id_required (VStr "admin1")
           (Req.mk (VStr "delete") (VStr "") VUndefined VUndefined VUndefined
                   VUndefined VUndefined)
           env0 (world_of [] [seminar])).
  - right. reflexivity.
  - reflexivity.
Defined.

Lemma post_events_update (userId : value) (req : Req.t) (e : env) (w : world) :
  Req.action req = VStr "update" ->
  truthy (Req.id req) = true ->
  disk_ok e = true ->
  let events' :=
    map (fun ev => if negb (strict_eq (Event.id ev) (Req.id req)) then ev
                   else patch req ev) (eventsFile w) in
  post_events userId req e w
  = (Ok (Json 200 (EventsBody events')),
     mkWorld (scheduleFile w) events' (emitted w ++ [EventsUpdate events'])).
Proof.
  intros Ha Hi Hdisk events'. apply post_events_commit; trivial.
  - now rewrite Ha.
  - unfold apply_action. rewrite Ha; simpl. now rewrite Hi.
Qed.


(** X13: an update whose id matches no stored event is not an error: it
    is answered 200 with the collection as it was, which is rewritten
    unchanged and broadcast. *)
Theorem update_unknown_id_is_silent
        (userId : value) (req : Req.t) (e : env) (w : world) :
  Req.action req = VStr "update" ->
  truthy (Req.id req) = true ->
  (forall ev, In ev (eventsFile w) -> strict_eq (Event.id ev) (Req.id req) = false) ->
  disk_ok e = true ->
  post_events userId req e w
  = (Ok (Json 200 (EventsBody (eventsFile w))),
     mkWorld (scheduleFile w) (eventsFile w)
             (emitted w ++ [EventsUpdate (eventsFile w)])).
Proof.
  intros Ha Hi Habs Hdisk.
  rewrite (post_events_update userId req e w Ha Hi Hdisk).
  assert (Hmap :
    map (fun ev => if negb (strict_eq (Event.id ev) (Req.id req)) then ev
                   else patch req ev) (eventsFile w) = eventsFile w).
  { rewrite <- (map_id (eventsFile w)) at 2. apply map_ext_in.
    intros ev Hin. now rewrite (Habs ev Hin). }
  now rewrite Hmap.
Qed.

Lemma update_unknown_id_is_silent_witness :
  post_events (VStr "admin1")
    (Req.mk (VStr "update") (VStr "nope") (VStr "2024-06-01") VUndefined
            VUndefined VUndefined VUndefined)
    env0 (world_of [] [seminar])
  = (Ok (Json 200 (EventsBody [seminar])),
     mkWorld [] [seminar] [EventsUpdate [seminar]]).
Proof.
  apply (update_unknown_id_is_silent (VStr "admin1")
           (Req.mk (VStr "update") (VStr "nope") (VStr "2024-06-01") VUndefined
                   VUndefined VUndefined VUndefined)
           env0 (world_of [] [seminar])); try reflexivity.
  intros ev [<- | []]. reflexivity.
Defined.

(** ** Update and delete on the whole collection *)


Lemma patch_id (req : Req.t) (ev : Event.t) :
  Event.id (if negb (strict_eq (Event.id ev) (Req.id req)) then ev
            else patch req ev) = Event.id ev.
Proof. now destruct (strict_eq (Event.id ev) (Req.id req)). Qed.

Lemma patch_createdBy (req : Req.t) (ev : Event.t) :
  Event.createdBy (if negb (strict_eq (Event.id ev) (Req.id req)) then ev
                   else patch req ev) = Event.createdBy ev.
Proof. now destruct (strict_eq (Event.id ev) (Req.id req)). Qed.

(** X14: an update with an id answers 200 with a collection that has
    the same ids and the same createdBy in the same positions; an event
    with another id is the old event, and in an event with that id each
    of date, room, startTime, endTime, eventName is the supplied value
    when that is truthy and the old value otherwise. *)
Theorem update_replaces_supplied_fields
        (userId : value) (req : Req.t) (e : env) (w : world) :
  Req.action req = VStr "update" ->
  truthy (Req.id req) = true ->
  disk_ok e = true ->
  exists events',
    fst (post_events userId req e w) = Ok (Json 200 (EventsBody events')) /\
    eventsFile (snd (post_events userId req e w)) = events' /\
    map Event.id events' = map Event.id (eventsFile w) /\
    map Event.createdBy events' = map Event.createdBy (eventsFile w) /\
    forall k old,
      nth_error (eventsFile w) k = Some old ->
      exists new,
        nth_error events' k = Some new /\
        (strict_eq (Event.id old) (Req.id req) = false -> new = old) /\
        (strict_eq (Event.id old) (Req.id req) = true ->
         Event.date new
         = (if truthy (Req.date req) then Req.date req else Event.date old) /\
         Event.room new
         = (if truthy (Req.room req) then Req.room req else Event.room old) /\
         Event.startTime new
         = (if truthy (Req.startTime req) then Req.startTime req
            else Event.startTime old) /\
         Event.endTime new
         = (if truthy (Req.endTime req) then Req.endTime req
            else Event.endTime old) /\
         Event.eventName new
         = (if truthy (Req.eventName req) then Req.eventName req
            else Event.eventName old)).
Proof.
  intros Ha Hi Hdisk. eexists.
  rewrite (post_events_update userId req e w Ha Hi Hdisk). simpl.
  split; [reflexivity | split; [reflexivity | ]].
  split; [ | split].
  - rewrite map_map. apply map_ext. intro ev. apply patch_id.
  - rewrite map_map. apply map_ext. intro ev. apply patch_createdBy.
  - intros k old Hk. eexists. rewrite nth_error_map, Hk. simpl.
    split; [reflexivity | ].
    destruct (strict_eq (Event.id old) (Req.id req)); simpl.
    + split; [discriminate | ]. intros _. repeat split.
    + split; [reflexivity | discriminate].
Qed.

Lemma update_replaces_supplied_fields_witness :
  exists events',
    fst (post_events (VStr "admin2")
           (Req.mk (VStr "update") (VStr "lvnj1fk1-7") VUndefined (VStr "R9")
                   (VStr "") VUndefined VUndefined)
           env0 (world_of [] [seminar; lecture]))
    = Ok (Json 200 (EventsBody events')) /\
    map Event.id events' = map Event.id [seminar; lecture].
Proof.
  destruct (update_replaces_supplied_fields (VStr "admin2")
              (Req.mk (VStr "update") (VStr "lvnj1fk1-7") VUndefined (VStr "R9")
                      (VStr "") VUndefined VUndefined)
              env0 (world_of [] [seminar; lecture]) eq_refl eq_refl eq_refl)
    as (events' & Hrun & _ & Hids & _).
  exists events'. split; [exact Hrun | exact Hids].
Defined.





Lemma NoDup_map_filter {A B} (g : A -> B) (f : A -> bool) (l : list A) :
  NoDup (map g l) -> NoDup (map g (filter f l)).
Proof.
  induction l as [ | a r IH]; simpl; intro H; [constructor | ].
  inversion H as [ | x l' Hnotin Hnd]; subst.
  destruct (f a); simpl; [ | now apply IH].
  constructor; [ | now apply IH].
  intro Hin. apply Hnotin. apply in_map_iff in Hin.
  destruct Hin as (x & Hx & Hin). apply filter_In in Hin.
  apply in_map_iff. exists x. tauto.
Qed.

(** X16: a request that is not a create never breaks the uniqueness of
    the stored ids: updates keep every id, deletes only remove, and
    rejected or failed requests change nothing. *)
Theorem post_events_keeps_ids_unique
        (userId : value) (req : Req.t) (e : env) (w : world) :
  strict_eq (Req.action req) (VStr "create") = false ->
  NoDup (map Event.id (eventsFile w)) ->
  NoDup (map Event.id (eventsFile (snd (post_events userId req e w)))).
Proof.
  intros Hc Hnd.
  destruct (post_events_cases userId req e w)
    as [[message E] | [[_ E] | (events' & _ & Hact & E)]];
    rewrite E; simpl; trivial.
  unfold apply_action in Hact. rewrite Hc in Hact.
  destruct (strict_eq (Req.action req) (VStr "update")).
  - destruct (negb (truthy (Req.id req))); inversion Hact; subst events'.
    rewrite map_map.
    rewrite (map_ext _ Event.id (fun ev => patch_id req ev)). exact Hnd.
  - destruct (strict_eq (Req.action req) (VStr "delete")); [ | discriminate].
    destruct (negb (truthy (Req.id req))); inversion Hact; subst events'.
    now apply NoDup_map_filter.
Qed.

Lemma post_events_keeps_ids_unique_witness :
  NoDup (map Event.id
             (eventsFile (snd (post_events (VStr "admin2") rename_seminar env0
                                           (world_of [] [seminar; lecture]))))).
Proof.
  apply (post_events_keeps_ids_unique (VStr "admin2") rename_seminar env0
           (world_of [] [seminar; lecture])).
  - reflexivity.
  - simpl. constructor.
    + simpl. intros [H | []]. discriminate H.
    + constructor; [intros [] | constructor].
Defined.

(** ** Reading events back by date *)

Lemma get_events_dated (q : string) (e : env) (w : world) :
  trim q <> EmptyString ->
  get_events (Some q) e w
  = (Ok (filter (fun ev => strict_eq (Event.date ev) (VStr (trim q)))
                (eventsFile w)), w).
Proof.
  intro H. unfold get_events, bind, readEvents.
  assert (Hq : truthy (VStr q) = true).
  { simpl. destruct (q =? "")%string eqn:E; [ | reflexivity].
    apply String.eqb_eq in E. subst q. now contradiction H. }
  rewrite Hq.
  assert (Ht : truthy (VStr (trim q)) = true).
  { simpl. apply negb_true_iff. now apply String.eqb_neq. }
  now rewrite Ht.
Qed.

(** X17: after a successful create whose date is a non-empty string
    without surrounding white space, GET /api/events with that date
    (white space around the query is ignored) returns a list that ends
    with the new event, and a GET with any other non-blank date does not
    return it. *)
Theorem create_then_get_by_date
        (userId : value) (req : Req.t) (d : string) (e e' : env) (w : world) :
  Req.action req = VStr "create" ->
  Req.date req = VStr d ->
  truthy (VStr d) = true -> (trim d =? d)%string = true ->
  truthy (Req.room req) = true ->
  truthy (Req.startTime req) = true -> truthy (Req.endTime req) = true ->
  truthy (Req.eventName req) = true ->
  disk_ok e = true ->
  let new := Event.mk (VStr (make_id (now e) (random e)))
                      (VStr d) (Req.room req) (Req.startTime req)
                      (Req.endTime req) (Req.eventName req) userId in
  let w' := snd (post_events userId req e w) in
  (forall q, trim q = d ->
             exists before, fst (get_events (Some q) e' w') = Ok (before ++ [new])) /\
  (forall q found, trim q <> EmptyString -> trim q <> d ->
                   fst (get_events (Some q) e' w') = Ok found ->
                   ~ In new found).
Proof.
  intros Ha Hdate Hd Ht Hr Hs He Hn Hdisk new w'.
  assert (Hd' : truthy (Req.date req) = true) by now rewrite Hdate.
  assert (Hw : eventsFile w' = eventsFile w ++ [new]).
  { unfold w'. rewrite (post_events_create userId req e w Ha Hd' Hr Hs He Hn Hdisk).
    simpl. unfold new. now rewrite Hdate. }
  assert (Hne : d <> EmptyString).
  { intro H. subst d. discriminate Hd. }
  split.
  - intros q Hq. rewrite get_events_dated by (rewrite Hq; exact Hne).
    simpl. rewrite Hw, filter_app, Hq. simpl. rewrite String.eqb_refl.
    now eexists.
  - intros q found Hq Hqd Hfound. rewrite get_events_dated in Hfound by exact Hq.
    simpl in Hfound. inversion Hfound; subst found. intro Hin.
    apply filter_In in Hin. destruct Hin as [_ Heq]. simpl in Heq.
    apply String.eqb_eq in Heq. congruence.
Qed.

Lemma create_then_get_by_date_witness :
  (exists before,
      fst (get_events (Some " 2024-05-01 "%string) env0
             (snd (post_events (VStr "admin1") create_seminar env0
                               (world_of [] [lecture]))))
      = Ok (before ++ [seminar])) /\
  (forall found,
      fst (get_events (Some "2024-05-02"%string) env0
             (snd (post_events (VStr "admin1") create_seminar env0
                               (world_of [] [lecture]))))
      = Ok found -> ~ In seminar found).
Proof.
  destruct (create_then_get_by_date (VStr "admin1") create_seminar
              "2024-05-01" env0 env0 (world_of [] [lecture])
              eq_refl eq_refl eq_refl eq_refl eq_refl eq_refl eq_refl eq_refl
              eq_refl) as [Hsame Hother].
  split.
  - apply (Hsame " 2024-05-01 "%string). reflexivity.
  - intros found. apply (Hother "2024-05-02"%string); vm_compute; discriminate.
Defined.

(** X18: the date filter compares with the trimmed query, so a stored
    event whose date is not a string, or is a string with leading or
    trailing white space (create accepts both), is returned by no GET
    with a non-blank date. *)
Theorem get_events_never_finds_untrimmed_date
        (ev : Event.t) (q : string) (e : env) (w : world)
        (found : list Event.t) :
  is_trimmed_string (Event.date ev) = false ->
  trim q <> EmptyString ->
  fst (get_events (Some q) e w) = Ok found ->
  ~ In ev found.
Proof.
  intros Hev Hq Hfound Hin. rewrite get_events_dated in Hfound by exact Hq.
  simpl in Hfound. inversion Hfound; subst found.
  apply filter_In in Hin. destruct Hin as [_ Heq].
  apply strict_eq_true in Heq. rewrite Heq in Hev. simpl in Hev.
  now rewrite trim_idem, String.eqb_refl in Hev.
Qed.

Lemma get_events_never_finds_untrimmed_date_witness :
  ~ In (Event.mk (VStr "lvnj1fk0-42") (VStr "2024-05-01 ") (VStr "R1")
                 (VStr "10:00") (VStr "11:00") (VStr "Seminar") (VStr "admin1"))
       [].
Proof.
  apply (get_events_never_finds_untrimmed_date
           (Event.mk (VStr "lvnj1fk0-42") (VStr "2024-05-01 ") (VStr "R1")
                     (VStr "10:00") (VStr "11:00") (VStr "Seminar")
                     (VStr "admin1"))
           "2024-05-01 " env0
           (world_of []
              [Event.mk (VStr "lvnj1fk0-42") (VStr "2024-05-01 ") (VStr "R1")
                        (VStr "10:00") (VStr "11:00") (VStr "Seminar")
                        (VStr "admin1")])).
  - reflexivity.
  - vm_compute. discriminate.
  - reflexivity.
Defined.

(** X19: a GET without a date, or with a date that is empty or only
    white space, returns every stored event; no GET changes the files
    or broadcasts. *)
Theorem get_events_blank_returns_all (q : option string) (e : env) (w : world) :
  snd (get_events q e w) = w /\
  (match q with Some d => trim d | None => EmptyString end = EmptyString ->
   fst (get_events q e w) = Ok (eventsFile w)).
Proof.
  split.
  - unfold get_events, bind, readEvents.
    now destruct (negb (truthy (VStr (trim _)))).
  - intro H. unfold get_events, bind, readEvents.
    assert (Ht : trim (match q with
                       | Some d => if truthy (VStr d) then d else EmptyString
                       | None => EmptyString
                       end) = EmptyString).
    { destruct q as [d | ]; [ | reflexivity].
      destruct (truthy (VStr d)); [exact H | reflexivity]. }
    now rewrite Ht.
Qed.

Lemma get_events_blank_returns_all_witness :
  fst (get_events (Some "   "%string) env0 (world_of [] [seminar; lecture]))
  = Ok [seminar; lecture].
Proof.
  apply (proj2 (get_events_blank_returns_all
                  (Some "   "%string) env0 (world_of [] [seminar; lecture]))).
  reflexivity.
Defined.

(** ** Ids *)

(** X20: the id scheme separates requests: two creates that differ in
    the millisecond or in the random draw get different ids. *)
Theorem make_id_differs (t r t' r' : Z) :
  0 <= t -> 0 <= r -> 0 <= t' -> 0 <= r' ->
  t <> t' \/ r <> r' ->
  make_id t r <> make_id t' r'.
Proof.
  intros Ht Hr Ht' Hr' Hneq E.
  apply make_id_injective in E; trivial. lia.
Qed.

Lemma make_id_differs_witness :
  make_id 1714550400000 42 <> make_id 1714550400000 43.
Proof.
  apply make_id_differs; try lia.
Defined.

(** ** Authentication *)

Lemma split_on_not_nil (sep : ascii) (s : string) : split_on sep s <> [].
Proof.
  induction s as [ | c r IH]; simpl; [discriminate | ].
  destruct (c =? sep)%char; [discriminate | ].
  now destruct (split_on sep r).
Qed.

Lemma split_on_space_one (s b : string) :
  split_on " " s = [b] -> s = b /\ has_space b = false.
Proof.
  revert b. induction s as [ | c r IH]; simpl; intros b H.
  - inversion H. now split.
  - destruct (c =? " ")%char eqn:E.
    + inversion H as [[Hb Hr]]. now apply split_on_not_nil in Hr.
    + destruct (split_on " " r) as [ | h t] eqn:Er;
        inversion H; subst.
      * simpl. rewrite E. now apply split_on_not_nil in Er.
      * destruct (IH h eq_refl) as [-> Hh]. simpl. now rewrite E, Hh.
Qed.

Lemma split_on_space_two (s a b : string) :
  split_on " " s = [a; b] ->
  s = (a ++ String " " b)%string /\ has_space b = false.
Proof.
  revert a. induction s as [ | c r IH]; simpl; intros a H; [discriminate | ].
  destruct (c =? " ")%char eqn:E.
  - inversion H as [[Ha Hr]]. apply Ascii.eqb_eq in E. subst c.
    apply split_on_space_one in Hr. destruct Hr as [-> Hb]. now split.
  - destruct (split_on " " r) as [ | h t] eqn:Er; inversion H; subst.
    destruct (IH h eq_refl) as [-> Hb]. now split.
Qed.

Lemma split_on_space_none (s : string) :
  has_space s = false -> split_on " " s = [s].
Proof.
  induction s as [ | c r IH]; simpl; [reflexivity | ].
  intro H. apply orb_false_iff in H. destruct H as [Hc Hr].
  now rewrite Hc, (IH Hr).
Qed.

Lemma split_on_space_bearer (token : string) :
  has_space token = false ->
  split_on " " ("Bearer " ++ token) = ["Bearer"%string; token].
Proof.
  intro H. simpl. now rewrite (split_on_space_none token H).
Qed.

Lemma authMiddleware_accepts
        (J : jwt) (authorization : option string) (e : env) (w : world)
        (payload : Payload.t) :
  snd (authMiddleware J authorization e w) = w /\
  (fst (authMiddleware J authorization e w) = Ok (inr payload) <->
   exists token,
     authorization = Some ("Bearer " ++ token)%string /\
     has_space token = false /\
     jwt_verify J e token = Some payload /\
     truthy (Payload.isAdmin payload) = true).
Proof.
  unfold authMiddleware.
  set (header := match authorization with
                 | Some h => if truthy (VStr h) then h else EmptyString
                 | None => EmptyString
                 end).
  split.
  - destruct (negb (List.length (split_on " " header) =? 2)%nat
              || negb (nth 0 (split_on " " header) EmptyString =? "Bearer")%string);
      [reflexivity | ].
    destruct (jwt_verify J e (nth 1 (split_on " " header) EmptyString));
      [ | reflexivity].
    now destruct (negb (truthy (Payload.isAdmin t))).
  - split.
    + intro H.
      destruct (split_on " " header) as [ | a [ | b [ | c rest]]] eqn:Es;
        simpl in H; try discriminate H.
      destruct (a =? "Bearer")%string eqn:Ea; simpl in H; [ | discriminate H].
      apply String.eqb_eq in Ea. subst a.
      destruct (jwt_verify J e b) as [p | ] eqn:Ev; [ | discriminate H].
      destruct (truthy (Payload.isAdmin p)) eqn:Ep; simpl in H;
        [ | discriminate H].
      inversion H; subst p.
      apply split_on_space_two in Es. destruct Es as [Eh Hb].
      exists b. repeat split; trivial.
      unfold header in Eh. destruct authorization as [h | ]; [ | discriminate Eh].
      destruct (truthy (VStr h)); [now rewrite Eh | discriminate Eh].
    + intros (token & -> & Hs & Hv & Hp). unfold header.
      change (truthy (VStr ("Bearer " ++ token))) with true. cbv iota.
      rewrite (split_on_space_bearer token Hs). simpl.
      now rewrite Hv, Hp.
Qed.

(** X21: [authMiddleware] lets a request through, with the decoded
    payload as the user, exactly when the authorization header is the
    word Bearer, one space and a token without spaces, the token
    verifies, and the payload's isAdmin is truthy; it never touches the
    files or broadcasts. *)
Theorem authMiddleware_accepts_iff
        (J : jwt) (authorization : option string) (e : env) (w : world)
        (payload : Payload.t) :
  snd (authMiddleware J authorization e w) = w /\
  (fst (authMiddleware J authorization e w) = Ok (inr payload) <->
   exists token,
     authorization = Some ("Bearer " ++ token)%string /\
     has_space token = false /\
     jwt_verify J e token = Some payload /\
     truthy (Payload.isAdmin payload) = true).
Proof. apply authMiddleware_accepts. Qed.

Lemma authMiddleware_cases
      (J : jwt) (authorization : option string) (e : env) (w : world) :
  (exists status message,
      (status = 401 \/ status = 403) /\
      authMiddleware J authorization e w
      = (Ok (inl (Json status (MessageBody message))), w))
  \/ (exists payload,
         authMiddleware J authorization e w = (Ok (inr payload), w)).
Proof.
  unfold authMiddleware.
  destruct (negb (List.length (split_on " " _) =? 2)%nat
            || negb (nth 0 (split_on " " _) EmptyString =? "Bearer")%string).
  - left. exists 401. eexists. split; [now left | reflexivity].
  - destruct (jwt_verify J e _) as [p | ].
    + destruct (negb (truthy (Payload.isAdmin p))).
      * left. exists 403. eexists. split; [now right | reflexivity].
      * right. now exists p.
    + left. exists 401. eexists. split; [now left | reflexivity].
Qed.

(** X22: no mutation without an administrator's token: when the header
    is not Bearer-and-token, or the token does not verify, or its
    payload is not an administrator's, both mutating routes answer 401
    or 403 and leave both files and the broadcasts as they were. *)
Theorem routes_reject_without_admin_token
        (J : jwt) (authorization : option string) (e : env) (w : world)
        (slot : Slot.t) (req : Req.t) :
  (forall token payload,
      authorization = Some ("Bearer " ++ token)%string ->
      has_space token = false ->
      jwt_verify J e token = Some payload ->
      truthy (Payload.isAdmin payload) = false) ->
  exists status message,
    (status = 401 \/ status = 403) /\
    route_post_schedule_slot J authorization slot e w
    = (Ok (Json status (MessageBody message)), w) /\
    route_post_events J authorization req e w
    = (Ok (Json status (MessageBody message)), w).
Proof.
  intro Hno.
  destruct (authMiddleware_cases J authorization e w)
    as [(status & message & Hst & E) | [payload E]].
  - exists status, message. split; [exact Hst | ].
    unfold route_post_schedule_slot, route_post_events, guarded, bind.
    now rewrite E.
  - exfalso.
    destruct (proj1 (proj2 (authMiddleware_accepts
                              J authorization e w payload)))
      as (token & Ha & Hs & Hv & Hp).
    + now rewrite E.
    + rewrite (Hno token payload Ha Hs Hv) in Hp. discriminate Hp.
Qed.

Lemma routes_reject_without_admin_token_witness :
  exists status message,
    (status = 401 \/ status = 403) /\
    route_post_schedule_slot plain_jwt (Some "Basic admin1"%string) physics_0930
                             env0 (world_of [math_0900] [])
    = (Ok (Json status (MessageBody message)), world_of [math_0900] []) /\
    route_post_events plain_jwt (Some "Basic admin1"%string) create_seminar
                      env0 (world_of [math_0900] [])
    = (Ok (Json status (MessageBody message)), world_of [math_0900] []).
Proof.
  apply (routes_reject_without_admin_token
           plain_jwt (Some "Basic admin1"%string) env0
           (world_of [math_0900] []) physics_0930 create_seminar).
  intros token payload H. inversion H.
Defined.

(** ** Login *)

Lemma post_login_ok
        (J : jwt) (userId password : value) (e : env) (w : world)
        (token uid : string) :
  snd (post_login J userId password e w) = w /\
  (fst (post_login J userId password e w) = Ok (LoginOk token uid) <->
   exists pw,
     userId = VStr uid /\ password = VStr pw /\
     In (uid, pw) ADMIN_ACCOUNTS /\
     token = jwt_sign J e (Payload.mk (VStr uid) (VBool true))).
Proof.
  unfold post_login. split.
  - destruct (negb (truthy userId) || negb (truthy password)); [reflexivity | ].
    now destruct (find _ ADMIN_ACCOUNTS).
  - split.
    + destruct (negb (truthy userId) || negb (truthy password));
        [discriminate | ].
      destruct (find _ ADMIN_ACCOUNTS) as [[u p] | ] eqn:Ef; [ | discriminate].
      simpl. intro H. inversion H; subst.
      apply find_some in Ef. destruct Ef as [Hin Hp]. cbn [fst snd] in Hp.
      apply andb_true_iff in Hp. destruct Hp as [Hu Hpw].
      apply strict_eq_true in Hu, Hpw.
      exists p. repeat split; auto.
    + intros (pw & -> & -> & Hin & ->).
      simpl in Hin. destruct Hin as [H | [H | []]]; inversion H; reflexivity.
Qed.

(** X23: POST /api/login answers with a token exactly when userId and
    password are the strings of one of the two built-in accounts; the
    token is the signed payload of that user with isAdmin true, the
    userId sent back is the account's, and nothing is written or
    broadcast. *)
Theorem post_login_ok_iff
        (J : jwt) (userId password : value) (e : env) (w : world)
        (token uid : string) :
  snd (post_login J userId password e w) = w /\
  (fst (post_login J userId password e w) = Ok (LoginOk token uid) <->
   exists pw,
     userId = VStr uid /\ password = VStr pw /\
     In (uid, pw) ADMIN_ACCOUNTS /\
     token = jwt_sign J e (Payload.mk (VStr uid) (VBool true))).
Proof. apply post_login_ok. Qed.

Lemma post_login_scenarios :
  post_login plain_jwt (VStr "admin2") (VStr "pass2") env0 (world_of [] [])
  = (Ok (LoginOk "admin2" "admin2"), world_of [] []) /\
  post_login plain_jwt (VStr "admin2") (VStr "pass1") env0 (world_of [] [])
  = (Ok (LoginError 401 "Invalid credentials"), world_of [] []) /\
  post_login plain_jwt (VStr "admin2") VUndefined env0 (world_of [] [])
  = (Ok (LoginError 400 "userId and password required"), world_of [] []).
Proof. repeat split. Qed.

(** X24: a token handed out by a login opens both mutating routes: as
    long as the token library gives back the administrator payloads it
    signed and the token has no space, a request carrying the token as
    Bearer runs the handler itself, and the event route attributes to
    the userId of the login. *)
Theorem login_token_opens_routes
        (J : jwt) (userId password : value) (e0 e : env) (w0 w : world)
        (token uid : string) (slot : Slot.t) (req : Req.t) :
  fst (post_login J userId password e0 w0) = Ok (LoginOk token uid) ->
  (forall u, jwt_verify J e (jwt_sign J e0 (Payload.mk (VStr u) (VBool true)))
             = Some (Payload.mk (VStr u) (VBool true))) ->
  has_space token = false ->
  route_post_schedule_slot J (Some ("Bearer " ++ token)%string) slot e w
  = post_schedule_slot slot e w /\
  route_post_events J (Some ("Bearer " ++ token)%string) req e w
  = post_events (VStr uid) req e w.
Proof.
  intros Hlogin Hlib Hsp.
  apply (proj2 (post_login_ok J userId password e0 w0 token uid)) in Hlogin.
  destruct Hlogin as (pw & _ & _ & _ & Htok).
  assert (Hauth :
    authMiddleware J (Some ("Bearer " ++ token)%string) e w
    = (Ok (inr (Payload.mk (VStr uid) (VBool true))), w)).
  { pose proof (authMiddleware_accepts
                  J (Some ("Bearer " ++ token)%string) e w
                  (Payload.mk (VStr uid) (VBool true))) as [Hw Hiff].
    rewrite (surjective_pairing (authMiddleware _ _ e w)), Hw. f_equal.
    apply Hiff. exists token. repeat split; trivial.
    rewrite Htok. apply Hlib. }
  unfold route_post_schedule_slot, route_post_events, guarded, bind.
  now rewrite Hauth.
Qed.

Lemma login_token_opens_routes_witness :
  route_post_events plain_jwt (Some ("Bearer " ++ "admin1")%string)
                    create_seminar env0 (world_of [] [])
  = post_events (VStr "admin1") create_seminar env0 (world_of [] []).
Proof.
  refine (proj2 (login_token_opens_routes
                   plain_jwt (VStr "admin1") (VStr "pass1") env0 env0
                   (world_of [] []) (world_of [] []) "admin1" "admin1"
                   physics_0930 create_seminar _ _ _)).
  - reflexivity.
  - intro u. reflexivity.
  - reflexivity.
Defined.

(** ** What viewers are sent *)

(** X25: after a slot request answered 200, a viewer that connects, asks
    for the schedule over its socket or GETs /api/schedule is sent the
    schedule of the answer, which is also the last thing broadcast; the
    same holds for the event route and the events. *)
Theorem viewers_get_the_answered_state
        (userId : value) (slot : Slot.t) (req : Req.t) (e e' : env) (w : world) :
  (forall result,
      fst (post_schedule_slot slot e w) = Ok (Json 200 (ScheduleBody result)) ->
      let w' := snd (post_schedule_slot slot e w) in
      fst (on_connection e' w')
      = Ok [ScheduleUpdate result; EventsUpdate (eventsFile w)] /\
      fst (on_request_schedule e' w') = Ok [ScheduleUpdate result] /\
      fst (get_schedule e' w') = Ok result /\
      last (emitted w') (EventsUpdate []) = ScheduleUpdate result) /\
  (forall events',
      fst (post_events userId req e w) = Ok (Json 200 (EventsBody events')) ->
      let w' := snd (post_events userId req e w) in
      fst (on_connection e' w')
      = Ok [ScheduleUpdate (scheduleFile w); EventsUpdate events'] /\
      fst (on_request_events e' w') = Ok [EventsUpdate events'] /\
      fst (get_events None e' w') = Ok events' /\
      last (emitted w') (ScheduleUpdate []) = EventsUpdate events').
Proof.
  split.
  - intros result H w'. unfold w'. clear w'.
    destruct (post_schedule_slot_cases slot e w)
      as [E | [E | [[_ E] | (r & _ & _ & _ & _ & _ & _ & E)]]];
      rewrite E in H |- *; simpl in H; try discriminate H.
    inversion H; subst r. simpl. repeat split. apply last_last.
  - intros events' H w'. unfold w'. clear w'.
    destruct (post_events_cases userId req e w)
      as [[message E] | [[_ E] | (r & _ & _ & E)]];
      rewrite E in H |- *; simpl in H; try discriminate H.
    inversion H; subst r. simpl. repeat split. apply last_last.
Qed.

Lemma viewers_get_the_answered_state_witness :
  fst (on_connection env0
         (snd (post_schedule_slot physics_1000 env0
                                  (world_of [math_0900] [seminar]))))
  = Ok [ScheduleUpdate [math_0900; physics_1000]; EventsUpdate [seminar]].
Proof.
  refine (proj1 (proj1 (viewers_get_the_answered_state
                          VUndefined physics_1000 delete_nope env0 env0
                          (world_of [math_0900] [seminar]))
                       [math_0900; physics_1000] _)).
  reflexivity.
Defined.

(** ** The earlier routes *)

(** X26: the earlier DELETE answers 404 exactly when no stored event has
    the id, and then changes nothing; when some event has it and the
    file can be written, it answers 200, stores the events of other ids
    and broadcasts them. *)
Theorem bak_delete_event_spec (i : string) (e : env) (w : world) :
  (fst (Bak.delete_event i e w) = Ok (Json 404 (MessageBody "Not found")) <->
   forall ev, In ev (eventsFile w) -> strict_eq (Event.id ev) (VStr i) = false) /\
  (fst (Bak.delete_event i e w) = Ok (Json 404 (MessageBody "Not found")) ->
   snd (Bak.delete_event i e w) = w) /\
  ((exists ev, In ev (eventsFile w) /\ strict_eq (Event.id ev) (VStr i) = true) ->
   disk_ok e = true ->
   let events' :=
     filter (fun ev => negb (strict_eq (Event.id ev) (VStr i))) (eventsFile w) in
   Bak.delete_event i e w
   = (Ok (Json 200 SuccessBody),
      mkWorld (scheduleFile w) events' (emitted w ++ [EventsUpdate events']))).
Proof.
  set (f := fun ev => negb (strict_eq (Event.id ev) (VStr i))).
  assert (Hlen : (List.length (filter f (eventsFile w))
                  =? List.length (eventsFile w))%nat = true
                 <-> forall ev, In ev (eventsFile w) ->
                                strict_eq (Event.id ev) (VStr i) = false).
  { rewrite Nat.eqb_eq. split.
    - intros H ev Hin. apply filter_length_forallb in H.
      rewrite forallb_forall in H. apply negb_true_iff. now apply H.
    - intro H. unfold f. now rewrite (filter_absent_id (VStr i) _ H). }
  unfold Bak.delete_event, bind, readEvents. fold f.
  destruct (List.length (filter f (eventsFile w))
            =? List.length (eventsFile w))%nat eqn:E.
  - simpl. repeat split; trivial.
    + intros _. now apply Hlen.
    + intros [ev [Hin Hid]] _. rewrite (proj1 Hlen eq_refl ev Hin) in Hid.
      discriminate Hid.
  - split; [ | split].
    + split.
      * unfold writeEvents, emit, ret. destruct (disk_ok e); discriminate.
      * intro H. apply Hlen in H. discriminate H.
    + unfold writeEvents, emit, ret. destruct (disk_ok e); discriminate.
    + intros _ Hdisk. unfold writeEvents, emit, ret. now rewrite Hdisk.
Qed.

Lemma bak_delete_event_spec_witness :
  Bak.delete_event "lvnj1fk0-42" env0 (world_of [] [seminar; lecture])
  = (Ok (Json 200 SuccessBody),
     mkWorld [] [lecture] [EventsUpdate [lecture]]).
Proof.
  refine (proj2 (proj2 (bak_delete_event_spec
                          "lvnj1fk0-42" env0 (world_of [] [seminar; lecture])))
                _ _).
  - exists seminar. split; [now left | reflexivity].
  - reflexivity.
Defined.

(** X27: the earlier create, given all five fields, answers 201 with the
    created event and broadcasts the array it wrote; when the file
    cannot be written it throws out of the handler, having broadcast
    nothing, and a missing field is answered 400 before the file is
    read. *)
Theorem bak_post_events_spec
        (userId : value) (req : Req.t) (e : env) (w : world) :
  let ev := Event.mk (VStr (make_id (now e) (random e)))
                     (Req.date req) (Req.room req) (Req.startTime req)
                     (Req.endTime req) (Req.eventName req) userId in
  (truthy (Req.date req) && truthy (Req.room req)
   && truthy (Req.startTime req) && truthy (Req.endTime req)
   && truthy (Req.eventName req) = true ->
   (disk_ok e = true ->
    Bak.post_events userId req e w
    = (Ok (Json 201 (EventBody ev)),
       mkWorld (scheduleFile w) (eventsFile w ++ [ev])
               (emitted w ++ [EventsUpdate (eventsFile w ++ [ev])]))) /\
   (disk_ok e = false ->
    Bak.post_events userId req e w = (Throw WriteError, w))) /\
  (truthy (Req.date req) && truthy (Req.room req)
   && truthy (Req.startTime req) && truthy (Req.endTime req)
   && truthy (Req.eventName req) = false ->
   Bak.post_events userId req e w
   = (Ok (Json 400 (MessageBody "Missing fields")), w)).
Proof.
  intro ev. split.
  - intro Hf. repeat rewrite andb_true_iff in Hf.
    destruct Hf as [[[[Hd Hr] Hs] He] Hn]. split.
    + intro Hdisk. now apply bak_post_events_create.
    + intro Hdisk. unfold Bak.post_events. rewrite Hd, Hr, Hs, He, Hn. simpl.
      unfold bind, readEvents, fresh_id, bind, dateNow, randomBelow10000, ret,
        writeEvents.
      now rewrite Hdisk.
  - intro Hf. unfold Bak.post_events.
    destruct (truthy (Req.date req)), (truthy (Req.room req)),
      (truthy (Req.startTime req)), (truthy (Req.endTime req)),
      (truthy (Req.eventName req)); try discriminate Hf; reflexivity.
Qed.

Lemma bak_post_events_spec_witness :
  Bak.post_events (VStr "admin1") create_seminar env0 (world_of [] [lecture])
  = (Ok (Json 201 (EventBody seminar)),
     mkWorld [] [lecture; seminar] [EventsUpdate [lecture; seminar]]).
Proof.
  refine (proj1 (proj1 (bak_post_events_spec
                          (VStr "admin1") create_seminar env0
                          (world_of [] [lecture])) _) _);
    reflexivity.
Defined.
